(** * NIFTI-1 header codec of [neuroimaging.data_io.formats.nifti1]

    A shallow embedding of the code tables, the header schema, the
    geometry resolution ([Nifti1.transform]), the read-side checks of
    [Nifti1.__init__] and the rescaling pair [postread] / [prewrite],
    followed by the properties established about them.

    Numbers that Python carries as floats are binary64 values
    ([PrimFloat.float]); integer header fields are in [Z].  The two scaling
    entries of the header and the elements of arrays are Python values of
    any numeric type, and numpy's arithmetic on them is a parameter of the
    methods that use it. *)

From Stdlib Require Import ZArith List String Ascii Bool Lia.
From Stdlib Require Import Floats.
Import ListNotations.

Local Open Scope Z_scope.

(** ** Exceptions and the error monad *)

(** The exceptions the modelled code can raise: the module's own
    [Nifti1FormatError], and the built-in ones that dictionary lookups,
    list indexing, numpy reductions and assignments, and arithmetic on
    operands it does not fit ([TypeError], and [ArithmeticError] with its
    subclasses) raise. *)
Inductive exn : Type :=
  | Nifti1FormatError
  | KeyError
  | IndexError
  | ValueError
  | TypeError
  | ArithmeticError.

Inductive result (A : Type) : Type :=
  | Ok (a : A)
  | Raise (e : exn).

Arguments Ok {A} a.
Arguments Raise {A} e.

Definition bind {A B : Type} (m : result A) (k : A -> result B) : result B :=
  match m with
  | Ok a => k a
  | Raise e => Raise e
  end.

Notation "x <- m ;; k" := (bind m (fun x => k))
  (at level 61, m at next level, right associativity).

(** ** Element-type code table (lines 21-54) *)

Definition UBYTE : Z := 2.
Definition SHORT : Z := 4.
Definition INTEGER : Z := 8.
Definition FLOAT : Z := 16.
Definition COMPLEX : Z := 32.
Definition DOUBLE : Z := 64.
Definition RGB : Z := 128.
Definition INT8 : Z := 256.
Definition UINT16 : Z := 512.
Definition UINT32 : Z := 768.
Definition INT64 : Z := 1024.
Definition UINT64 : Z := 1280.
Definition FLOAT128 : Z := 1536.
Definition COMPLEX128 : Z := 1792.
Definition COMPLEX256 : Z := 2048.

(** numpy's scalar types: the twelve that the table uses, three numeric
    ones that it leaves out, and any other one by its name and the size of
    its items. *)
Inductive sctype : Type :=
  | uint8 | int16 | int32 | float32 | complex64 | float64
  | int8 | uint16 | uint32 | int64 | uint64 | complex128
  | bool_ | float128 | complex256
  | other_sctype (name : string) (size : Z).

Definition sctype_eq_dec (a b : sctype) : {a = b} + {a <> b}.
Proof. decide equality; [apply Z.eq_dec | apply string_dec]. Defined.

(** [dtype.itemsize] of numpy's scalar types. *)
Definition itemsize (t : sctype) : Z :=
  match t with
  | uint8 | int8 | bool_ => 1
  | int16 | uint16 => 2
  | int32 | uint32 | float32 => 4
  | int64 | uint64 | float64 | complex64 => 8
  | complex128 | float128 => 16
  | complex256 => 32
  | other_sctype _ size => size
  end.

(** A Python dict literal, as the list of its items. *)
Definition datatype2sctype : list (Z * sctype) :=
  [ (UBYTE, uint8);
    (SHORT, int16);
    (INTEGER, int32);
    (FLOAT, float32);
    (COMPLEX, complex64);
    (DOUBLE, float64);
    (INT8, int8);
    (UINT16, uint16);
    (UINT32, uint32);
    (INT64, int64);
    (UINT64, uint64);
    (COMPLEX128, complex128) ].

(** [dict([(v, k) for k, v in datatype2sctype.items()])] *)
Definition sctype2datatype : list (sctype * Z) :=
  map (fun kv => (snd kv, fst kv)) datatype2sctype.

(** [d[key]]: the value of the last item with that key (a later item of a
    dict constructor overrides an earlier one), [KeyError] without one. *)
Fixpoint getitem {K V : Type} (eqb : K -> K -> bool) (d : list (K * V)) (key : K)
  : result V :=
  match d with
  | [] => Raise KeyError
  | (k, v) :: rest =>
      match getitem eqb rest key with
      | Ok v' => Ok v'
      | Raise _ => if eqb k key then Ok v else Raise KeyError
      end
  end.

Definition sctype_eqb (a b : sctype) : bool :=
  if sctype_eq_dec a b then true else false.

Definition lookup_sctype (code : Z) : result sctype :=
  getitem Z.eqb datatype2sctype code.

Definition lookup_datatype (t : sctype) : result Z :=
  getitem sctype_eqb sctype2datatype t.

(** ** Header schema (lines 135-183) *)

Definition HEADER_SIZE : Z := 348.

Local Open Scope string_scope.

Definition struct_formats : list (string * string) :=
  [ ("sizeof_hdr", "i");
    ("data_type", "10s");
    ("db_name", "18s");
    ("extents", "i");
    ("session_error", "h");
    ("regular", "c");
    ("dim_info", "B");
    ("dim", "8h");
    ("intent_p1", "f");
    ("intent_p2", "f");
    ("intent_p3", "f");
    ("intent_code", "h");
    ("datatype", "h");
    ("bitpix", "h");
    ("slice_start", "h");
    ("pixdim", "8f");
    ("vox_offset", "f");
    ("scl_slope", "f");
    ("scl_inter", "f");
    ("slice_end", "h");
    ("slice_code", "B");
    ("xyzt_units", "B");
    ("cal_max", "f");
    ("cal_min", "f");
    ("slice_duration", "f");
    ("toffset", "f");
    ("glmax", "i");
    ("glmin", "i");
    ("descrip", "80s");
    ("aux_file", "24s");
    ("qform_code", "h");
    ("sform_code", "h");
    ("quatern_b", "f");
    ("quatern_c", "f");
    ("quatern_d", "f");
    ("qoffset_x", "f");
    ("qoffset_y", "f");
    ("qoffset_z", "f");
    ("srow_x", "4f");
    ("srow_y", "4f");
    ("srow_z", "4f");
    ("intent_name", "16s");
    ("magic", "4s");
    ("qfac", "f") ].

Definition field_formats : list string := map snd struct_formats.

(** The width in bytes that a layout descriptor declares: an optional
    decimal repeat count followed by one type character of Python's
    [struct] module. *)
Definition digit_of (c : ascii) : option Z :=
  let n := Z.of_nat (nat_of_ascii c) in
  if (48 <=? n)%Z && (n <=? 57)%Z then Some (n - 48)%Z else None.

Definition type_size (c : ascii) : option Z :=
  if Ascii.eqb c "i" then Some 4%Z
  else if Ascii.eqb c "h" then Some 2%Z
  else if Ascii.eqb c "f" then Some 4%Z
  else if Ascii.eqb c "c" then Some 1%Z
  else if Ascii.eqb c "B" then Some 1%Z
  else if Ascii.eqb c "s" then Some 1%Z
  else None.

Fixpoint calcsize_from (count : option Z) (fmt : string) : option Z :=
  match fmt with
  | EmptyString => None
  | String c EmptyString =>
      match type_size c with
      | Some w => Some (match count with Some n => n * w | None => w end)%Z
      | None => None
      end
  | String c rest =>
      match digit_of c with
      | Some d =>
          calcsize_from
            (Some (match count with Some n => 10 * n + d | None => d end)%Z) rest
      | None => None
      end
  end.

Definition calcsize (fmt : string) : option Z := calcsize_from None fmt.

Fixpoint total_size (fmts : list string) : option Z :=
  match fmts with
  | [] => Some 0%Z
  | f :: rest =>
      match calcsize f, total_size rest with
      | Some w, Some t => Some (w + t)%Z
      | _, _ => None
      end
  end.

Local Close Scope string_scope.

(** ** Python values *)

(** Truth value of a float: false for both zeros, true otherwise. *)
Definition truthy (f : float) : bool := negb (f =? 0)%float.

(** The Python values that header fields and array elements take: [None],
    an int, a float, a string, a list, or a numpy scalar, given by its type
    and its value (real and imaginary part, exactly). *)
#[local] Set Warnings "-register-all".
Inductive pyval : Type :=
  | PNone
  | PInt (z : Z)
  | PFloat (f : float)
  | PStr (s : string)
  | PList (l : list pyval)
  | PNumpy (t : sctype) (re im : spec_float).

Definition is_zero (v : spec_float) : bool :=
  match v with
  | S754_zero _ => true
  | _ => false
  end.

(** Truth value: [None], a zero of any numeric type, the empty string and
    the empty list are false. *)
Definition py_truthy (v : pyval) : bool :=
  match v with
  | PNone => false
  | PInt z => negb (z =? 0)%Z
  | PFloat f => truthy f
  | PStr s => negb (String.eqb s EmptyString)
  | PList l => match l with [] => false | _ => true end
  | PNumpy _ re im => negb (is_zero re && is_zero im)
  end.

(** ** Decoded header and open image *)

(** The fields of the header dictionary that the modelled methods read or
    write, typed by their layout: ['h'] fields are integers, ['f'] fields
    floats, ['8h'] / ['8f'] / ['4f'] fields Python lists, ['4s'] a string.
    The two scaling entries hold whatever [prewrite] has last assigned:
    a float decoded from the file, or the number it took from the data. *)
Record Header : Type := mkHeader {
  dim : list Z;
  datatype : Z;
  bitpix : Z;
  pixdim : list float;
  vox_offset : float;
  scl_slope : pyval;
  scl_inter : pyval;
  qform_code : Z;
  sform_code : Z;
  quatern_b : float;
  quatern_c : float;
  quatern_d : float;
  qoffset_x : float;
  qoffset_y : float;
  qoffset_z : float;
  srow_x : list float;
  srow_y : list float;
  srow_z : list float;
  magic : string;
  qfac : float
}.

(** [header['scl_inter'] = i; header['scl_slope'] = s] *)
Definition set_scaling (h : Header) (i s : pyval) : Header :=
  mkHeader (dim h) (datatype h) (bitpix h) (pixdim h) (vox_offset h)
           s i
           (qform_code h) (sform_code h)
           (quatern_b h) (quatern_c h) (quatern_d h)
           (qoffset_x h) (qoffset_y h) (qoffset_z h)
           (srow_x h) (srow_y h) (srow_z h) (magic h) (qfac h).

(** A numpy array: its shape and its elements in storage order. *)
Record ndarray : Type := mkArray {
  shape : list Z;
  items : list pyval
}.

(** A numpy [dtype]: the scalar type of the elements ([dtype.type]) and
    whether their byte order is the machine's. *)
Record np_dtype : Type := mkDtype {
  dtype_type : sctype;
  dtype_native : bool
}.

(** What the methods use of an opened [Nifti1] object. *)
Record Nifti1 : Type := mkNifti1 {
  header : Header;
  use_memmap : bool;
  dtype : np_dtype;
  data : ndarray
}.

Definition with_header (self : Nifti1) (h : Header) : Nifti1 :=
  mkNifti1 h (use_memmap self) (dtype self) (data self).

(** A 4x4 transform, as the list of its rows. *)
Definition matrix : Type := list (list float).

(** Calls that leave the object: the scale selection of [utils], and the
    rewrite of the header through a file opened ['rb+']. *)
Inductive event : Type :=
  | CallScaleData (arg : ndarray) (t : np_dtype) (default : pyval)
  | WriteHeader (h : Header).

(** numpy's arithmetic of an array with a number, its reductions, and the
    comparisons of two numbers, as the methods call them.  What they
    compute depends on the element types (an integer array wraps, single
    precision stays single, a NaN spreads through a reduction) and they
    raise on operands they do not fit, so the methods take them as a
    parameter. *)
Record NumPy : Type := mkNumPy {
  np_sub : ndarray -> pyval -> result ndarray;
  np_div : ndarray -> pyval -> result ndarray;
  np_mul : ndarray -> pyval -> result ndarray;
  np_add : ndarray -> pyval -> result ndarray;
  np_max : ndarray -> result pyval;
  np_min : ndarray -> result pyval;
  np_gt : pyval -> pyval -> bool;
  np_lt : pyval -> pyval -> bool;
  np_ne : pyval -> pyval -> bool
}.

(** ** Python and numpy primitives *)

(** [l[n]] for a non-negative literal index. *)
Definition list_index {A : Type} (l : list A) (n : nat) : result A :=
  match nth_error l n with
  | Some a => Ok a
  | None => Raise IndexError
  end.

(** [f in [a, b, ...]], by [==]. *)
Definition float_in (f : float) (l : list float) : bool :=
  existsb (fun e => (f =? e)%float) l.

(** [s in (a, b, ...)] for strings. *)
Definition string_in (s : string) (l : list string) : bool :=
  existsb (String.eqb s) l.

(** Tuple equality of two shapes. *)
Fixpoint shape_eqb (s t : list Z) : bool :=
  match s, t with
  | [], [] => true
  | a :: s', b :: t' => (a =? b)%Z && shape_eqb s' t'
  | _, _ => false
  end.

(** [N.zeros((r, c))] *)
Definition zeros (r c : nat) : matrix := repeat (repeat 0%float c) r.

Fixpoint replace_nth {A : Type} (l : list A) (n : nat) (a : A) : list A :=
  match l, n with
  | [], _ => []
  | _ :: t, O => a :: t
  | h :: t, S n' => h :: replace_nth t n' a
  end.

(** [m[i, j] = v] for indices within the matrix. *)
Definition set_item (m : matrix) (i j : nat) (v : float) : matrix :=
  match nth_error m i with
  | Some row => replace_nth m i (replace_nth row j v)
  | None => m
  end.

(** [m[i] = N.array(src)]: the row takes [src] when the lengths agree, a
    single element is broadcast along the row, any other length raises
    [ValueError]. *)
Definition set_row (m : matrix) (i : nat) (src : list float) : result matrix :=
  match nth_error m i with
  | None => Raise IndexError
  | Some row =>
      if Nat.eqb (List.length src) (List.length row) then Ok (replace_nth m i src)
      else match src with
           | [a] => Ok (replace_nth m i (repeat a (List.length row)))
           | _ => Raise ValueError
           end
  end.

(** [N.sctypes['uint']] *)
Definition sctypes_uint : list sctype := [uint8; uint16; uint32; uint64].

(** [d == t] for a dtype and a scalar type: the same elements, in the
    machine's byte order; elements of one byte have no byte order. *)
Definition dtype_eqb (d : np_dtype) (t : sctype) : bool :=
  sctype_eqb (dtype_type d) t && (dtype_native d || (itemsize t =? 1)%Z).

(** [self.dtype in N.sctypes['uint']], by [==]. *)
Definition in_sctypes_uint (d : np_dtype) : bool :=
  existsb (dtype_eqb d) sctypes_uint.

(** ** The methods of [Nifti1] *)

Definition nul : ascii := Ascii.zero.

Definition magic_single : string := String "n" (String "+" (String "1" (String nul EmptyString))).
Definition magic_dual : string := String "n" (String "i" (String "1" (String nul EmptyString))).

(** The read branch of [__init__] (lines 247-254), from the record that
    [read_header] decoded: the magic test, the element type and [ndim]. *)
Definition init_read (h : Header) : result (sctype * Z) :=
  if negb (string_in (magic h) [magic_single; magic_dual])
  then Raise Nifti1FormatError
  else
    tmpsctype <- lookup_sctype (datatype h) ;;
    ndim <- list_index (dim h) 0 ;;
    Ok (tmpsctype, ndim).

(** The matrix that the three row vectors of the sform describe. *)
Definition srow_matrix (h : Header) : matrix :=
  [ srow_x h; srow_y h; srow_z h; [0; 0; 0; 1]%float ].

(** The matrix of a header without orientation. *)
Definition no_orientation : matrix :=
  [ [0; 0; 0; 0]; [0; 0; 0; 0]; [0; 0; 0; 0]; [0; 0; 0; 1] ]%float.

Section Collaborators.

(** numpy, and [nifti1_ext.quatern2mat], [utils.scale_data] and the
    ancestor's [self[:]], which are defined outside this module. *)
Variable np : NumPy.
Variable quatern2mat :
  float -> float -> float -> float -> float -> float ->
  float -> float -> float -> float -> matrix.
Variable scale_data : ndarray -> np_dtype -> pyval -> pyval.
Variable getitem_all : Nifti1 -> result ndarray.

(** [postread] (lines 433-443) *)
Definition postread (self : Nifti1) (x : ndarray) : result ndarray :=
  if negb (use_memmap self) then Ok x
  else if py_truthy (scl_slope (header self))
       then
         scaled <- np_mul np x (scl_slope (header self)) ;;
         np_add np scaled (scl_inter (header self))
       else Ok x.

(** [transform] (lines 381-419) on the header of the object. *)
Definition transform (h : Header) : result matrix :=
  qfac0 <- list_index (pixdim h) 0 ;;
  if negb (float_in qfac0 [(-1)%float; 1%float])
  then Raise Nifti1FormatError
  else
    let value := set_item (zeros 4 4) 3 3 1%float in
    if (0 <? qform_code h)%Z then
      dx <- list_index (pixdim h) 1 ;;
      dy <- list_index (pixdim h) 2 ;;
      dz <- list_index (pixdim h) 3 ;;
      Ok (quatern2mat (quatern_b h) (quatern_c h) (quatern_d h)
                      (qoffset_x h) (qoffset_y h) (qoffset_z h)
                      dx dy dz qfac0)
    else if (0 <? sform_code h)%Z then
      value1 <- set_row value 0 (srow_x h) ;;
      value2 <- set_row value1 1 (srow_y h) ;;
      set_row value2 2 (srow_z h)
    else Ok value.

(** [(x - header['scl_inter'])/header['scl_slope']] (lines 462 and 489) *)
Definition scaled (x : ndarray) (h : Header) : result ndarray :=
  shifted <- np_sub np x (scl_inter h) ;;
  np_div np shifted (scl_slope h).

(** The test of line 463: the whole array is replaced, or the maximum
    under the current scaling exceeds the stored maximum. *)
Definition cast_needed (self : Nifti1) (x scaled_x : ndarray) : result bool :=
  if shape_eqb (shape x) (shape (data self)) then Ok true
  else
    smax <- np_max np scaled_x ;;
    dmax <- np_max np (data self) ;;
    Ok (np_gt np smax dmax).

(** The built-in [min(a, b)]: [b] when [b < a], else [a]. *)
Definition py_min (a b : pyval) : pyval := if np_lt np b a then b else a.

(** Lines 464-467. *)
Definition minval_of (self : Nifti1) (x : ndarray) : result pyval :=
  if shape_eqb (shape x) (shape (data self)) then np_min np x
  else
    xmin <- np_min np x ;;
    old <- getitem_all self ;;
    omin <- np_min np old ;;
    Ok (py_min xmin omin).

(** Lines 471-474; [a and b or c] is [c] when [a] or [b] is false. *)
Definition intercept_of (t : np_dtype) (minval : pyval) : pyval :=
  if in_sctypes_uint t then minval
  else if np_gt np minval (PInt 0)
       then (if py_truthy minval then minval else PInt 0)
       else PInt 0.

(** [prewrite] (lines 445-491): the object after the call, the calls it
    made, and the array to store or the exception that ended it. *)
Definition prewrite (self : Nifti1) (x : ndarray)
  : Nifti1 * list event * result ndarray :=
  if negb (use_memmap self) then (self, [], Ok x)
  else
    let h := header self in
    match scaled x h with
    | Raise e => (self, [], Raise e)
    | Ok scaled_x =>
        match cast_needed self x scaled_x with
        | Raise e => (self, [], Raise e)
        | Ok false => (self, [], Ok scaled_x)
        | Ok true =>
            match minval_of self x with
            | Raise e => (self, [], Raise e)
            | Ok minval =>
                let intercept := intercept_of (dtype self) minval in
                match np_sub np x intercept with
                | Raise e => (self, [], Raise e)
                | Ok arg =>
                    let scale := scale_data arg (dtype self) (scl_slope h) in
                    let called := CallScaleData arg (dtype self) (scl_slope h) in
                    if np_ne np scale (scl_slope h) || np_ne np intercept (scl_inter h)
                    then
                      let h' := set_scaling h intercept scale in
                      (with_header self h', [called; WriteHeader h'], scaled x h')
                    else (self, [called], Ok scaled_x)
                end
            end
        end
    end.

End Collaborators.

(** ** Stand-ins for the collaborators *)

Local Open Scope float_scope.

(** Modelled from the spec: [nifti1_ext.quatern2mat] is not part of this
    module.  A unit-quaternion rotation from the three stored components,
    the fourth one reconstructed for unit norm and clamped to zero when the
    squares sum to more than 1; columns scaled by the pixel spacings, the
    third one also by [qfac]; the offsets as translation. *)
Definition quatern2mat_model (b c d qx qy qz dx dy dz qfac0 : float) : matrix :=
  let a2 := 1 - (b * b + c * c + d * d) in
  let a := if a2 <? 0 then 0 else sqrt a2 in
  let zs := dz * qfac0 in
  [ [ (a * a + b * b - c * c - d * d) * dx;
      (2 * (b * c - a * d)) * dy;
      (2 * (b * d + a * c)) * zs;
      qx ];
    [ (2 * (b * c + a * d)) * dx;
      (a * a + c * c - b * b - d * d) * dy;
      (2 * (c * d - a * b)) * zs;
      qy ];
    [ (2 * (b * d - a * c)) * dx;
      (2 * (c * d + a * b)) * dy;
      (a * a + d * d - c * c - b * b) * zs;
      qz ];
    [ 0; 0; 0; 1 ] ].

(** A [float64] scalar. *)
Definition f64 (f : float) : pyval := PNumpy float64 (Prim2SF f) (S754_zero false).

(** A [float64] array of the given shape. *)
Definition f64_array (s : list Z) (l : list float) : ndarray := mkArray s (map f64 l).

(** The binary64 value of a Python int below 2^63. *)
Definition float_of_Z (z : Z) : float :=
  match z with
  | Z0 => 0
  | Zpos _ => of_uint63 (Uint63.of_Z z)
  | Zneg _ => - of_uint63 (Uint63.of_Z (- z))
  end.

(** The binary64 value of a Python float, a Python int or a [float64]
    scalar; the stand-in below covers no other operand. *)
Definition as_float (v : pyval) : result float :=
  match v with
  | PFloat f => Ok f
  | PInt z => Ok (float_of_Z z)
  | PNumpy float64 re _ => Ok (SF2Prim re)
  | _ => Raise TypeError
  end.

Fixpoint floats_of (l : list pyval) : result (list float) :=
  match l with
  | [] => Ok []
  | v :: rest =>
      f <- as_float v ;;
      fs <- floats_of rest ;;
      Ok (f :: fs)
  end.

Definition elementwise (op : float -> float -> float) (x : ndarray) (c : pyval)
  : result ndarray :=
  c' <- as_float c ;;
  fs <- floats_of (items x) ;;
  Ok (f64_array (shape x) (map (fun v => op v c') fs)).

(** The larger and the smaller of two floats, a NaN when either is one. *)
Definition fmax (m w : float) : float :=
  if is_nan m then m else if is_nan w then w else if m <? w then w else m.

Definition fmin (m w : float) : float :=
  if is_nan m then m else if is_nan w then w else if w <? m then w else m.

Definition reduce (op : float -> float -> float) (x : ndarray) : result pyval :=
  fs <- floats_of (items x) ;;
  match fs with
  | [] => Raise ValueError
  | v :: rest => Ok (f64 (fold_left op rest v))
  end.

Definition compare_by (op : float -> float -> bool) (otherwise : bool) (a b : pyval) : bool :=
  match as_float a, as_float b with
  | Ok f, Ok g => op f g
  | _, _ => otherwise
  end.

(** numpy on [float64] arrays, for the examples: binary64 arithmetic
    element by element, reductions that raise [ValueError] on an array
    without elements and through which a NaN spreads, and the comparisons
    of binary64. *)
Definition numpy_float64 : NumPy :=
  {| np_sub := elementwise PrimFloat.sub;
     np_div := elementwise PrimFloat.div;
     np_mul := elementwise PrimFloat.mul;
     np_add := elementwise PrimFloat.add;
     np_max := reduce fmax;
     np_min := reduce fmin;
     np_gt := compare_by (fun a b => b <? a) false;
     np_lt := compare_by PrimFloat.ltb false;
     np_ne := compare_by (fun a b => negb (a =? b)) true |}.

(** Largest value of the integer element types, to the nearest binary64. *)
Definition type_max (t : sctype) : option float :=
  match t with
  | uint8 => Some 255
  | int8 => Some 127
  | int16 => Some 32767
  | uint16 => Some 65535
  | int32 => Some 2147483647
  | uint32 => Some 4294967295
  | int64 => Some 9223372036854775808
  | uint64 => Some 18446744073709551616
  | _ => None
  end.

(** Modelled from the spec: [utils.scale_data] is not part of this module.
    The smallest slope under which the largest datum fits the range of the
    element type, with the previous slope as a floor. *)
Definition scale_data_model (arg : ndarray) (t : np_dtype) (default : pyval) : pyval :=
  match type_max (dtype_type t),
        (m <- np_max numpy_float64 arg ;; as_float m),
        as_float default with
  | Some tmax, Ok m, Ok d => let s := m / tmax in if d <? s then f64 s else default
  | _, _, _ => default
  end.

(** Modelled from the spec: the ancestor's [__getitem__] is not part of this
    module.  Stored samples are materialized through the read-side map. *)
Definition getitem_all_model (self : Nifti1) : result ndarray :=
  postread numpy_float64 self (data self).

(** ** Sample headers and images *)

Definition default_header : Header :=
  {| dim := [0; 0; 0; 0; 0; 0; 0; 0]%Z;
     datatype := 0%Z;
     bitpix := 0%Z;
     pixdim := [1; 0; 0; 0; 0; 0; 0; 0];
     vox_offset := 352;
     scl_slope := PFloat 1;
     scl_inter := PFloat 0;
     qform_code := 0%Z;
     sform_code := 0%Z;
     quatern_b := 0; quatern_c := 0; quatern_d := 0;
     qoffset_x := 0; qoffset_y := 0; qoffset_z := 0;
     srow_x := [0; 0; 0; 0];
     srow_y := [0; 0; 0; 0];
     srow_z := [0; 0; 0; 0];
     magic := magic_single;
     qfac := 0 |}.

(** A 64x64x40 float image, 2mm voxels, qform and sform both set, the
    sform rows describing 3mm voxels. *)
Definition both_header : Header :=
  {| dim := [3; 64; 64; 40; 0; 0; 0; 0]%Z;
     datatype := FLOAT;
     bitpix := 32%Z;
     pixdim := [1; 2; 2; 2; 0; 0; 0; 0];
     vox_offset := 352;
     scl_slope := PFloat 1;
     scl_inter := PFloat 0;
     qform_code := 1%Z;
     sform_code := 2%Z;
     quatern_b := 0; quatern_c := 0; quatern_d := 0;
     qoffset_x := -64; qoffset_y := -64; qoffset_z := -40;
     srow_x := [3; 0; 0; -96];
     srow_y := [0; 3; 0; -96];
     srow_z := [0; 0; 3; -60];
     magic := magic_single;
     qfac := 1 |}.

Definition with_pixdim (h : Header) (p : list float) : Header :=
  mkHeader (dim h) (datatype h) (bitpix h) p (vox_offset h)
           (scl_slope h) (scl_inter h)
           (qform_code h) (sform_code h)
           (quatern_b h) (quatern_c h) (quatern_d h)
           (qoffset_x h) (qoffset_y h) (qoffset_z h)
           (srow_x h) (srow_y h) (srow_z h) (magic h) (qfac h).

Definition with_codes (h : Header) (q s : Z) : Header :=
  mkHeader (dim h) (datatype h) (bitpix h) (pixdim h) (vox_offset h)
           (scl_slope h) (scl_inter h)
           q s
           (quatern_b h) (quatern_c h) (quatern_d h)
           (qoffset_x h) (qoffset_y h) (qoffset_z h)
           (srow_x h) (srow_y h) (srow_z h) (magic h) (qfac h).

Definition with_magic (h : Header) (m : string) : Header :=
  mkHeader (dim h) (datatype h) (bitpix h) (pixdim h) (vox_offset h)
           (scl_slope h) (scl_inter h)
           (qform_code h) (sform_code h)
           (quatern_b h) (quatern_c h) (quatern_d h)
           (qoffset_x h) (qoffset_y h) (qoffset_z h)
           (srow_x h) (srow_y h) (srow_z h) m (qfac h).

Definition with_datatype (h : Header) (c : Z) : Header :=
  mkHeader (dim h) c (bitpix h) (pixdim h) (vox_offset h)
           (scl_slope h) (scl_inter h)
           (qform_code h) (sform_code h)
           (quatern_b h) (quatern_c h) (quatern_d h)
           (qoffset_x h) (qoffset_y h) (qoffset_z h)
           (srow_x h) (srow_y h) (srow_z h) (magic h) (qfac h).

(** The same header with [pixdim[0] = 0.5]. *)
Definition half_qfac_header : Header :=
  with_pixdim both_header [0.5; 2; 2; 2; 0; 0; 0; 0].

(** A 2x2 image stored as [t] in the machine's byte order, and a one-row
    slice. *)
Definition small_image (t : sctype) (slope inter : float) (memmap : bool) : Nifti1 :=
  {| header := set_scaling default_header (PFloat inter) (PFloat slope);
     use_memmap := memmap;
     dtype := mkDtype t true;
     data := f64_array [2; 2]%Z [10; 20; 30; 40] |}.

(** The same image read from a file of the other byte order. *)
Definition byteswapped (self : Nifti1) : Nifti1 :=
  mkNifti1 (header self) (use_memmap self)
           (mkDtype (dtype_type (dtype self)) false) (data self).

Definition full_block : ndarray := f64_array [2; 2]%Z [-3; 5; 7; 100].
Definition low_row : ndarray := f64_array [2]%Z [-3; 5].
Definition high_row : ndarray := f64_array [2]%Z [-3; 500].

Local Close Scope float_scope.

(** ** Unit code table (lines 56-80) *)

Definition NIFTI_UNITS_UNKNOWN : Z := 0.
Definition NIFTI_UNITS_METER : Z := 1.
Definition NIFTI_UNITS_MM : Z := 2.
Definition NIFTI_UNITS_MICRON : Z := 3.
Definition NIFTI_UNITS_SEC : Z := 8.
Definition NIFTI_UNITS_MSEC : Z := 16.
Definition NIFTI_UNITS_USEC : Z := 24.
Definition NIFTI_UNITS_HZ : Z := 32.
Definition NIFTI_UNITS_PPM : Z := 40.
Definition NIFTI_UNITS_RADS : Z := 48.

Definition unitcode2units : list (Z * string) :=
  [ (NIFTI_UNITS_UNKNOWN, "");
    (NIFTI_UNITS_METER, "m");
    (NIFTI_UNITS_MM, "mm");
    (NIFTI_UNITS_MICRON, "um");
    (NIFTI_UNITS_SEC, "s");
    (NIFTI_UNITS_MSEC, "ms");
    (NIFTI_UNITS_USEC, "us");
    (NIFTI_UNITS_HZ, "hz");
    (NIFTI_UNITS_PPM, "ppm");
    (NIFTI_UNITS_RADS, "rad") ]%string.

(** [dict([(v, k) for k, v in unitcode2units.items()])] *)
Definition units2unitcode : list (string * Z) :=
  map (fun kv => (snd kv, fst kv)) unitcode2units.

Definition lookup_units (code : Z) : result string :=
  getitem Z.eqb unitcode2units code.

Definition lookup_unitcode (u : string) : result Z :=
  getitem String.eqb units2unitcode u.

(** ** File names (lines 313-317) *)

(** [_get_filenames], with [datasource.exists] as [exists_]: the
    [a and b or c] idiom over a pair that is never false. *)
Definition _get_filenames (exists_ : string -> bool) (filebase : string)
  : string * string :=
  if exists_ (filebase ++ ".hdr")%string
  then ((filebase ++ ".hdr")%string, (filebase ++ ".img")%string)
  else ((filebase ++ ".nii")%string, (filebase ++ ".nii")%string).

(** ** Headers laid out as the schema says *)

(** The list lengths that the ['8h'], ['8f'] and ['4f'] layouts give. *)
Definition schema_shaped (h : Header) : bool :=
  Nat.eqb (List.length (dim h)) 8
  && Nat.eqb (List.length (pixdim h)) 8
  && Nat.eqb (List.length (srow_x h)) 4
  && Nat.eqb (List.length (srow_y h)) 4
  && Nat.eqb (List.length (srow_z h)) 4.

(** All rows and columns of a 4x4 matrix are there. *)
Definition is_4x4 (m : matrix) : bool :=
  Nat.eqb (List.length m) 4
  && forallb (fun row => Nat.eqb (List.length row) 4) m.

(** ** Deriving the header from a grid (lines 334-379) *)

(** [grid.mapping]: an [Affine] with its transform, or another mapping. *)
Inductive mapping : Type :=
  | Affine (transform : matrix)
  | OtherMapping.

(** What [header_from_given] reads of the grid. *)
Record SamplingGrid : Type := mkGrid {
  grid_ndim : Z;
  grid_shape : list Z;
  grid_mapping : mapping
}.

(** The ten values that [mat2quatern] returns. *)
Record quatern : Type := mkQuatern {
  q_b : float; q_c : float; q_d : float;
  q_x : float; q_y : float; q_z : float;
  q_dx : float; q_dy : float; q_dz : float;
  q_fac : float
}.

(** [l[d:]]: a negative start counts from the end, and a start outside
    the list is clipped. *)
Definition slice_from {A : Type} (l : list A) (d : Z) : list A :=
  let n := Z.of_nat (List.length l) in
  let start := if (d <? 0)%Z then Z.max (n + d) 0 else Z.min d n in
  skipn (Z.to_nat start) l.

(** [m[d:, d:]] *)
Definition block_from (m : matrix) (d : Z) : matrix :=
  map (fun row => slice_from row d) (slice_from m d).

(** [[v] * n]: empty when [n] is not positive. *)
Definition list_times {A : Type} (v : A) (n : Z) : list A := repeat v (Z.to_nat n).

(** The assignments of lines 345-377 to the header. *)
Definition set_given (h : Header) (code bits : Z) (q : quatern) (d : list Z) : Header :=
  mkHeader d code bits
           ([q_fac q; q_dx q; q_dy q; q_dz q] ++ skipn 4 (list_times 0%float 8))
           (vox_offset h) (scl_slope h) (scl_inter h)
           1%Z (sform_code h)
           (q_b q) (q_c q) (q_d q)
           (q_x q) (q_y q) (q_z q)
           (srow_x h) (srow_y h) (srow_z h) (magic h) (q_fac q).

Section HeaderFromGiven.

(** [grid.python2matlab] and [nifti1_ext.mat2quatern] are defined outside
    this module. *)
Variable python2matlab : SamplingGrid -> SamplingGrid.
Variable mat2quatern : matrix -> result quatern.

(** [header_from_given]: the header after the call and [self.ndim]. *)
Definition header_from_given (h : Header) (t : sctype) (grid : SamplingGrid)
  : result (Header * Z) :=
  let g := python2matlab grid in
  code <- lookup_datatype t ;;
  let bits := (itemsize t * 8)%Z in
  let ndim := grid_ndim g in
  match grid_mapping g with
  | OtherMapping => Raise Nifti1FormatError
  | Affine transform =>
      let ddim := (ndim - 3)%Z in
      q <- mat2quatern (block_from transform ddim) ;;
      Ok (set_given h code bits q
            ([ndim] ++ grid_shape g ++ list_times 0%Z (7 - ndim)),
          ndim)
  end.

End HeaderFromGiven.

(** Stand-ins for the two collaborators: the grid as it is, and the
    quaternion of a diagonal matrix with positive entries. *)
Definition python2matlab_model (g : SamplingGrid) : SamplingGrid := g.

(** Modelled from the spec: [nifti1_ext.mat2quatern] is not part of this
    module.  For a matrix of positive scales on the diagonal the rotation
    is the identity: zero quaternion, the scales as spacings, [qfac = 1]
    and the last column as offsets. *)
Definition mat2quatern_model (m : matrix) : result quatern :=
  match m with
  | [ [dx; _; _; qx]; [_; dy; _; qy]; [_; _; dz; qz]; _ ] =>
      Ok (mkQuatern 0 0 0 qx qy qz dx dy dz 1)%float
  | _ => Raise ValueError
  end.

(** A 64x64x40 grid of 2mm voxels, and the same with 10 time points. *)
Definition grid3 : SamplingGrid :=
  mkGrid 3 [64; 64; 40]%Z
    (Affine [ [2; 0; 0; -64]; [0; 2; 0; -64]; [0; 0; 2; -40]; [0; 0; 0; 1] ]%float).

Definition grid4 : SamplingGrid :=
  mkGrid 4 [10; 64; 64; 40]%Z
    (Affine [ [1; 0; 0; 0; 0];
              [0; 2; 0; 0; -64]; [0; 0; 2; 0; -64]; [0; 0; 0; 2; -40];
              [0; 0; 0; 0; 1] ]%float).

(** ** Default header values (lines 197-203 and 320-331) *)

Definition _field_defaults : list (string * pyval) :=
  [ ("sizeof_hdr"%string, PInt HEADER_SIZE);
    ("scl_slope"%string, PFloat 1%float);
    ("magic"%string, PStr magic_single);
    ("pixdim"%string,
       PList [PInt 1; PInt 0; PInt 0; PInt 0; PInt 0; PInt 0; PInt 0; PInt 0]);
    ("vox_offset"%string, PFloat 352%float) ].

(** [d.get(key, None)] *)
Definition dict_get (d : list (string * pyval)) (key : string) : pyval :=
  match getitem String.eqb d key with
  | Ok v => v
  | Raise _ => PNone
  end.

(** [s[:-1]] and [s[-1]]; the second raises [IndexError] on the empty
    string. *)
Fixpoint str_init (s : string) : string :=
  match s with
  | EmptyString => EmptyString
  | String c EmptyString => EmptyString
  | String c rest => String c (str_init rest)
  end.

Fixpoint str_last (s : string) : result ascii :=
  match s with
  | EmptyString => Raise IndexError
  | String c EmptyString => Ok c
  | String c rest => str_last rest
  end.

(** The value of a string of decimal digits. *)
Fixpoint decimal_from (acc : Z) (s : string) : option Z :=
  match s with
  | EmptyString => Some acc
  | String c rest =>
      match digit_of c with
      | Some d => decimal_from (10 * acc + d)%Z rest
      | None => None
      end
  end.

Definition decimal (s : string) : option Z :=
  match s with
  | EmptyString => None
  | _ => decimal_from 0%Z s
  end.

(** [header[key] = v] on an ordered dictionary: a key that is there keeps
    its place, a new key goes to the end. *)
Fixpoint odict_set (d : list (string * pyval)) (key : string) (v : pyval)
  : list (string * pyval) :=
  match d with
  | [] => [(key, v)]
  | (k, w) :: rest =>
      if String.eqb k key then (k, v) :: rest
      else (k, w) :: odict_set rest key v
  end.

Section FieldDefaults.

(** [utils.format_defaults[c]] and the built-in [int] are defined outside
    this module. *)
Variable format_defaults : ascii -> result pyval.
Variable py_int : string -> result Z.

(** [_default_field_value]: [a or (p and q) and r or s], evaluated from the
    left and only as far as needed.  A one-character string is a shared
    object, so [is not 's'] compares the characters. *)
Definition _default_field_value (fieldname fieldformat : string) : result pyval :=
  let override := dict_get _field_defaults fieldname in
  if py_truthy override then Ok override
  else
    is_array <-
      (if String.eqb (str_init fieldformat) EmptyString then Ok false
       else
         c <- str_last fieldformat ;;
         Ok (negb (Ascii.eqb c "s"))) ;;
    if is_array : bool then
      c <- str_last fieldformat ;;
      d <- format_defaults c ;;
      n <- py_int (str_init fieldformat) ;;
      let copies := PList (list_times d n) in
      if py_truthy copies then Ok copies
      else
        c' <- str_last fieldformat ;;
        format_defaults c'
    else
      c <- str_last fieldformat ;;
      format_defaults c.

(** [header_defaults] over the items of a schema, from the header as it
    is. *)
Fixpoint header_defaults_from (formats : list (string * string))
         (hdr : list (string * pyval)) : result (list (string * pyval)) :=
  match formats with
  | [] => Ok hdr
  | (field, format) :: rest =>
      v <- _default_field_value field format ;;
      header_defaults_from rest (odict_set hdr field v)
  end.

Definition header_defaults (hdr : list (string * pyval))
  : result (list (string * pyval)) :=
  header_defaults_from struct_formats hdr.

End FieldDefaults.

(** Stand-ins for the two collaborators. *)

(** Modelled from the spec: [utils.format_defaults] is not part of this
    module.  Each primitive type defaults to its zero: 0 for the integer
    types, 0.0 for floats, the empty string for characters and strings. *)
Definition format_defaults_model (c : ascii) : result pyval :=
  if Ascii.eqb c "i" || Ascii.eqb c "h" || Ascii.eqb c "B" then Ok (PInt 0)
  else if Ascii.eqb c "f" then Ok (PFloat 0%float)
  else if Ascii.eqb c "c" || Ascii.eqb c "s" then Ok (PStr EmptyString)
  else Raise KeyError.

(** [int] on the strings that occur: decimal digits, [ValueError]
    otherwise. *)
Definition py_int_model (s : string) : result Z :=
  match decimal s with
  | Some n => Ok n
  | None => Raise ValueError
  end.

(** ** The constructor (lines 211-310) *)

(** [NotImplementedError] and the [UnboundLocalError] of a local name read
    before it is bound, beside the exceptions above. *)
Inductive py_exn : Type :=
  | Builtin (e : exn)
  | UnboundLocalError
  | NotImplementedError.

Inductive outcome (A : Type) : Type :=
  | Returns (a : A)
  | Raises (e : py_exn).

Arguments Returns {A} a.
Arguments Raises {A} e.

Definition lift {A : Type} (r : result A) : outcome A :=
  match r with
  | Ok a => Returns a
  | Raise e => Raises (Builtin e)
  end.

(** The class attribute of line 207. *)
Definition nvector : Z := -1.

(** The arguments of [SamplingGrid.from_start_step] (lines 260-302):
    names, shape, start and step.  [axisnames] is bound in the two
    branches only. *)
Definition grid_arguments (space spacetime : list string) (h : Header) (ndim : Z)
  : outcome (list string * list Z * list float * list float) :=
  let origin := [qoffset_x h; qoffset_y h; qoffset_z h] in
  let step := firstn 3 (skipn 1 (pixdim h)) in
  let shape0 := firstn 3 (skipn 1 (dim h)) in
  if (ndim =? 3)%Z then
    Returns (rev space, shape0, map PrimFloat.opp origin, step)
  else if (ndim =? 4)%Z && (nvector <=? 1)%Z then
    match list_index (pixdim h) 4 with
    | Raise e => Raises (Builtin e)
    | Ok p4 =>
        match list_index (dim h) 4 with
        | Raise e => Raises (Builtin e)
        | Ok d4 =>
            Returns (rev spacetime, shape0 ++ [d4],
                     map PrimFloat.opp (origin ++ [1%float]), step ++ [p4])
        end
    end
  else Raises UnboundLocalError.

Section Constructor.

Variable python2matlab : SamplingGrid -> SamplingGrid.
Variable mat2quatern : matrix -> result quatern.

(** The write branch (lines 231-242) up to [write_header]: the element
    type is the [dtype] keyword, [float64] without one. *)
Definition init_write (h : Header) (dtype_kw : option sctype)
           (grid : option SamplingGrid) : outcome (Header * sctype * Z) :=
  let t := match dtype_kw with Some t => t | None => float64 end in
  match grid with
  | Some g =>
      match header_from_given python2matlab mat2quatern h t g with
      | Ok (h', ndim) => Returns (h', t, ndim)
      | Raise e => Raises (Builtin e)
      end
  | None => Raises NotImplementedError
  end.

End Constructor.

(** ** Canonical fields (lines 421-431) *)

(** [d[key]] on an ordered dictionary. *)
Fixpoint odict_get (d : list (string * pyval)) (key : string) : result pyval :=
  match d with
  | [] => Raise KeyError
  | (k, v) :: rest => if String.eqb k key then Ok v else odict_get rest key
  end.

(** [inform_canonical]: the canonical fields after the call, and how the
    call ended. *)
Definition inform_canonical (h : Header) (fieldsDict : option (list (string * pyval)))
           (canonical_fields : list (string * pyval))
  : list (string * pyval) * result unit :=
  match fieldsDict with
  | Some d => (d, Ok tt)
  | None =>
      let c1 := odict_set canonical_fields "datasize" (PInt (bitpix h)) in
      match firstn 5 (dim h) with
      | [n; x; y; z; t] =>
          let c2 := odict_set c1 "ndim" (PInt n) in
          let c3 := odict_set c2 "xdim" (PInt x) in
          let c4 := odict_set c3 "ydim" (PInt y) in
          let c5 := odict_set c4 "zdim" (PInt z) in
          let c6 := odict_set c5 "tdim" (PInt t) in
          (odict_set c6 "scaling" (scl_slope h), Ok tt)
      | _ => (c1, Raise ValueError)
      end
  end.

(** [header['qfac'] = f], and [header['dim'] = d]. *)
Definition with_qfac (h : Header) (f : float) : Header :=
  mkHeader (dim h) (datatype h) (bitpix h) (pixdim h) (vox_offset h)
           (scl_slope h) (scl_inter h)
           (qform_code h) (sform_code h)
           (quatern_b h) (quatern_c h) (quatern_d h)
           (qoffset_x h) (qoffset_y h) (qoffset_z h)
           (srow_x h) (srow_y h) (srow_z h) (magic h) f.

Definition with_dim (h : Header) (d : list Z) : Header :=
  mkHeader d (datatype h) (bitpix h) (pixdim h) (vox_offset h)
           (scl_slope h) (scl_inter h)
           (qform_code h) (sform_code h)
           (quatern_b h) (quatern_c h) (quatern_d h)
           (qoffset_x h) (qoffset_y h) (qoffset_z h)
           (srow_x h) (srow_y h) (srow_z h) (magic h) (qfac h).

(** * Properties *)

(** ** Facts about binary64 comparisons and division *)

Local Open Scope float_scope.

Lemma Prim2SF_zero : Prim2SF 0 = S754_zero false.
Proof. reflexivity. Qed.

Lemma Prim2SF_infinity : Prim2SF infinity = S754_infinity false.
Proof. reflexivity. Qed.

Lemma eqb_zero_inv (s : float) :
  (s =? 0) = true -> exists sg, Prim2SF s = S754_zero sg.
Proof.
  rewrite eqb_spec, Prim2SF_zero.
  destruct (Prim2SF s) as [sg | sg | | sg m e]; simpl.
  - intros _. now exists sg.
  - destruct sg; discriminate.
  - discriminate.
  - destruct sg; discriminate.
Qed.

(** Dividing by a zero of either sign gives an infinity or a NaN. *)
Lemma div_zero_not_finite (a s : float) :
  (s =? 0) = true -> is_finite (a / s) = false.
Proof.
  intros Hs. destruct (eqb_zero_inv s Hs) as [sg Hsg].
  unfold is_finite, is_nan, is_infinity.
  rewrite !eqb_spec, abs_spec, Prim2SF_infinity, div_spec, Hsg.
  unfold SF64div.
  destruct (Prim2SF a) as [sa | sa | | sa ma ea]; simpl; try reflexivity;
    destruct sa, sg; reflexivity.
Qed.

Local Close Scope float_scope.

(** ** Python primitives *)

Lemma shape_eqb_eq (s t : list Z) : shape_eqb s t = true <-> s = t.
Proof.
  revert t. induction s as [| a s IH]; intros [| b t]; simpl;
    try (split; [discriminate | discriminate]); try tauto.
  rewrite andb_true_iff, Z.eqb_eq, IH. split.
  - intros [-> ->]. reflexivity.
  - intros H. inversion H. auto.
Qed.

Lemma string_in_In (s : string) (l : list string) :
  string_in s l = true <-> In s l.
Proof.
  unfold string_in. rewrite existsb_exists. split.
  - intros [y [Hy Heq]]. apply String.eqb_eq in Heq. now subst.
  - intros H. exists s. split; [assumption | apply String.eqb_refl].
Qed.

Lemma sctype_eqb_eq (a b : sctype) : sctype_eqb a b = true <-> a = b.
Proof.
  unfold sctype_eqb. destruct (sctype_eq_dec a b); split; congruence.
Qed.

Lemma getitem_In {K V : Type} (eqb : K -> K -> bool) (d : list (K * V)) key v :
  (forall a b, eqb a b = true -> a = b) ->
  getitem eqb d key = Ok v -> In (key, v) d.
Proof.
  intros Heq. induction d as [| [k w] rest IH]; simpl; [discriminate |].
  destruct (getitem eqb rest key) as [v' | e].
  - intros H. right. apply IH. exact H.
  - destruct (eqb k key) eqn:E; [| discriminate].
    intros H. injection H as <-. left. now rewrite (Heq _ _ E).
Qed.

Lemma getitem_missing {K V : Type} (eqb : K -> K -> bool) (d : list (K * V)) key :
  (forall a b, eqb a b = true -> a = b) ->
  ~ In key (map fst d) -> getitem eqb d key = Raise KeyError.
Proof.
  intros Heq. induction d as [| [k w] rest IH]; simpl; [reflexivity |].
  intros Hn. rewrite IH by tauto.
  destruct (eqb k key) eqn:E; [| reflexivity].
  exfalso. apply Hn. left. exact (Heq _ _ E).
Qed.

Lemma getitem_raises {K V : Type} (eqb : K -> K -> bool) (d : list (K * V)) key e :
  getitem eqb d key = Raise e -> e = KeyError.
Proof.
  destruct d as [| [k w] rest]; simpl.
  - congruence.
  - destruct (getitem eqb rest key); [discriminate |].
    destruct (eqb k key); congruence.
Qed.

Lemma list_index_raises {A : Type} (l : list A) n e :
  list_index l n = Raise e -> e = IndexError.
Proof. unfold list_index. destruct (nth_error l n); congruence. Qed.

(** ** The code table *)

(** C9: the element-type table maps both ways on each of the twelve codes
    it supports, which are listed here with their types; resolving RGB
    (128), 128-bit float (1536), 256-bit complex (2048) or any other code
    outside that list raises the lookup error ([KeyError], the
    unsupported-code failure, which is not the format error of a wrong
    magic) instead of producing a type, and the read branch of [__init__]
    passes that error on. *)
Theorem datatype_table_two_way :
  Forall (fun ct => lookup_sctype (fst ct) = Ok (snd ct)
                    /\ lookup_datatype (snd ct) = Ok (fst ct))
    [ (2, uint8); (4, int16); (8, int32); (16, float32); (32, complex64);
      (64, float64); (256, int8); (512, uint16); (768, uint32);
      (1024, int64); (1280, uint64); (1792, complex128) ]
  /\ (forall code t, lookup_sctype code = Ok t <-> lookup_datatype t = Ok code)
  /\ (forall code,
        lookup_sctype code = Raise KeyError <->
        ~ In code [2; 4; 8; 16; 32; 64; 256; 512; 768; 1024; 1280; 1792])
  /\ (forall code t,
        ~ In code [2; 4; 8; 16; 32; 64; 256; 512; 768; 1024; 1280; 1792] ->
        lookup_sctype code <> Ok t)
  /\ lookup_sctype RGB = Raise KeyError
  /\ lookup_sctype FLOAT128 = Raise KeyError
  /\ lookup_sctype COMPLEX256 = Raise KeyError
  /\ (RGB, FLOAT128, COMPLEX256) = (128, 1536, 2048)
  /\ (forall h, string_in (magic h) [magic_single; magic_dual] = true ->
        ~ In (datatype h) [2; 4; 8; 16; 32; 64; 256; 512; 768; 1024; 1280; 1792] ->
        init_read h = Raise KeyError /\ init_read h <> Raise Nifti1FormatError).
Proof.
  assert (Hfwd : forall code t, lookup_sctype code = Ok t -> lookup_datatype t = Ok code).
  { intros code t H.
    apply getitem_In in H; [| intros a b; apply Z.eqb_eq].
    simpl in H.
    repeat (destruct H as [H | H]; [injection H as <- <-; reflexivity |]).
    contradiction. }
  assert (Hmiss : forall code,
             ~ In code [2; 4; 8; 16; 32; 64; 256; 512; 768; 1024; 1280; 1792] ->
             lookup_sctype code = Raise KeyError).
  { intros code Hn. apply getitem_missing; [intros a b; apply Z.eqb_eq | exact Hn]. }
  split; [| split; [| split; [| split; [| split; [| split; [| split; [| split]]]]]]].
  - repeat (constructor; [split; reflexivity |]). constructor.
  - intros code t. split; [apply Hfwd |].
    intros H. destruct t; vm_compute in H; try discriminate;
      injection H as <-; reflexivity.
  - intros code. split; [| apply Hmiss].
    intros H Hin. simpl in Hin.
    repeat (destruct Hin as [<- | Hin]; [discriminate H |]).
    contradiction.
  - intros code t Hn H. rewrite (Hmiss _ Hn) in H. discriminate.
  - reflexivity.
  - reflexivity.
  - reflexivity.
  - reflexivity.
  - intros h Hm Hn. unfold init_read. rewrite Hm. simpl.
    rewrite (Hmiss _ Hn). split; [reflexivity | discriminate].
Qed.

(** ** The header schema *)

(** C2, as the code has it: the schema is an ordered catalogue of 44
    entries whose declared widths sum to 352 bytes; its first 43 entries
    sum to exactly 348 bytes, which is [HEADER_SIZE], and the last entry is
    a 4-byte float named qfac. *)
Theorem schema_entries_and_size :
  List.length struct_formats = 44%nat
  /\ total_size field_formats = Some 352
  /\ total_size (firstn 43 field_formats) = Some HEADER_SIZE
  /\ skipn 43 struct_formats = [("qfac", "f")]%string.
Proof. repeat split. Qed.

(** C2, as stated, does not hold: the catalogue has neither 49 entries nor
    a total width of 348 bytes. *)
Lemma schema_not_49_entries_of_348_bytes :
  ~ (List.length struct_formats = 49%nat
     /\ total_size field_formats = Some 348).
Proof. intros [H _]. vm_compute in H. discriminate. Qed.

(** Neither half of it holds on its own. *)
Lemma schema_size_is_not_348 : total_size field_formats <> Some 348.
Proof. vm_compute. discriminate. Qed.

(** ** Opening for read *)

(** C4: the read branch of [__init__] raises [Nifti1FormatError] exactly
    when the decoded magic is neither of the two sentinels, and a record it
    accepts carries one of them. *)
Theorem init_read_magic (h : Header) :
  (init_read h = Raise Nifti1FormatError <->
     magic h <> magic_single /\ magic h <> magic_dual)
  /\ (forall r, init_read h = Ok r ->
        magic h = magic_single \/ magic h = magic_dual).
Proof.
  unfold init_read.
  destruct (string_in (magic h) [magic_single; magic_dual]) eqn:E; simpl.
  - apply string_in_In in E. simpl in E.
    assert (Hm : magic h = magic_single \/ magic h = magic_dual)
      by (destruct E as [E | [E | []]]; auto).
    split; [| intros _ _; exact Hm].
    split.
    + intros H. exfalso.
      destruct (lookup_sctype (datatype h)) as [t | e] eqn:L; simpl in H.
      * destruct (list_index (dim h) 0) as [n | e] eqn:I; simpl in H;
          [discriminate |].
        apply list_index_raises in I. congruence.
      * apply getitem_raises in L. congruence.
    + intros [H1 H2]. destruct Hm; contradiction.
  - split; [| discriminate].
    split; [| reflexivity].
    intros _.
    assert (Hn : ~ In (magic h) [magic_single; magic_dual]).
    { intros Hin. apply string_in_In in Hin. congruence. }
    simpl in Hn. split; intros Heq; apply Hn; auto.
Qed.

(** ** Reading samples *)

Lemma truthy_zero (f : float) : truthy f = false <-> (f =? 0)%float = true.
Proof. unfold truthy. destruct (f =? 0)%float; simpl; split; congruence. Qed.

(** C7: [postread] maps the samples by numpy's [x * scl_slope + scl_inter]
    on the stored entries, and returns the array unchanged exactly when the
    object was opened without [use_memmap] or the stored slope is false,
    which for a number of any kind means that it is zero. *)
Theorem postread_scaling (np : NumPy) (self : Nifti1) (x : ndarray) :
  postread np self x =
    (if negb (use_memmap self) || negb (py_truthy (scl_slope (header self)))
     then Ok x
     else
       scaled <- np_mul np x (scl_slope (header self)) ;;
       np_add np scaled (scl_inter (header self)))
  /\ (forall f, py_truthy (PFloat f) = false <-> (f =? 0)%float = true)
  /\ (forall z, py_truthy (PInt z) = false <-> z = 0)
  /\ (forall t re im,
        py_truthy (PNumpy t re im) = false <->
        (exists s, re = S754_zero s) /\ (exists s, im = S754_zero s)).
Proof.
  split; [| split; [| split]].
  - unfold postread.
    destruct (use_memmap self); simpl; [| reflexivity].
    destruct (py_truthy (scl_slope (header self))); reflexivity.
  - intros f. apply truthy_zero.
  - intros z. simpl. destruct (Z.eqb_spec z 0); simpl; split; congruence.
  - intros t re im. simpl. split.
    + intros H. apply negb_false_iff, andb_true_iff in H. destruct H as [Hr Hi].
      destruct re; try discriminate. destruct im; try discriminate. eauto.
    + intros [[s ->] [s' ->]]. reflexivity.
Qed.

(** ** Geometry resolution *)

Section Transform.

Variable quatern2mat :
  float -> float -> float -> float -> float -> float ->
  float -> float -> float -> float -> matrix.

(** The matrix from the quaternion fields of a header whose [pixdim]
    starts with [q; dx; dy; dz]. *)
Let quatern_matrix (h : Header) (dx dy dz q : float) : matrix :=
  quatern2mat (quatern_b h) (quatern_c h) (quatern_d h)
              (qoffset_x h) (qoffset_y h) (qoffset_z h) dx dy dz q.

(** With only the sform set, the three row vectors make up the result. *)
Lemma transform_sform (h : Header) (q : float) (rest : list float)
      (a b c : float * float * float * float) :
  pixdim h = q :: rest ->
  float_in q [(-1)%float; 1%float] = true ->
  (qform_code h <= 0)%Z ->
  (0 < sform_code h)%Z ->
  srow_x h = (let '(x0, x1, x2, x3) := a in [x0; x1; x2; x3]) ->
  srow_y h = (let '(x0, x1, x2, x3) := b in [x0; x1; x2; x3]) ->
  srow_z h = (let '(x0, x1, x2, x3) := c in [x0; x1; x2; x3]) ->
  transform quatern2mat h = Ok (srow_matrix h).
Proof.
  intros Hp Hq Hqf Hsf Hx Hy Hz.
  destruct a as [[[a0 a1] a2] a3], b as [[[b0 b1] b2] b3], c as [[[c0 c1] c2] c3].
  unfold transform, srow_matrix. rewrite Hp. simpl list_index. simpl bind.
  unfold float_in in Hq. simpl in Hq. rewrite Hq. simpl negb.
  apply Z.ltb_ge in Hqf. rewrite Hqf.
  apply Z.ltb_lt in Hsf. rewrite Hsf.
  rewrite Hx, Hy, Hz. reflexivity.
Qed.

(** C1, as the code has it: when [pixdim[0]] is exactly +1 or -1 and the
    qform and sform codes are both positive but the two encodings describe
    different matrices, [transform] returns the matrix built from the
    quaternion fields and not the one made of the srow vectors. *)
Theorem transform_qform_precedence
        (h : Header) (q dx dy dz : float) (rest : list float) :
  pixdim h = q :: dx :: dy :: dz :: rest ->
  float_in q [(-1)%float; 1%float] = true ->
  (0 < qform_code h)%Z ->
  (0 < sform_code h)%Z ->
  quatern_matrix h dx dy dz q <> srow_matrix h ->
  transform quatern2mat h = Ok (quatern_matrix h dx dy dz q)
  /\ transform quatern2mat h <> Ok (srow_matrix h).
Proof.
  intros Hp Hq Hqf Hsf Hdiff.
  assert (E : transform quatern2mat h = Ok (quatern_matrix h dx dy dz q)).
  { unfold transform. rewrite Hp. simpl list_index. simpl bind.
    unfold float_in in Hq. simpl in Hq. rewrite Hq. simpl negb.
    apply Z.ltb_lt in Hqf. rewrite Hqf. reflexivity. }
  split; [exact E |].
  rewrite E. intros H. injection H as H. contradiction.
Qed.

(** C3: a header whose [pixdim[0]] equals neither +1.0 nor -1.0 makes
    [transform] raise [Nifti1FormatError], whatever the qform and sform
    codes say. *)
Theorem transform_invalid_qfac (h : Header) (q : float) :
  list_index (pixdim h) 0 = Ok q ->
  (q =? 1)%float = false ->
  (q =? -1)%float = false ->
  transform quatern2mat h = Raise Nifti1FormatError.
Proof.
  intros Hp H1 H2. unfold transform. rewrite Hp. simpl.
  rewrite H1, H2. reflexivity.
Qed.

(** C8: with a valid [pixdim[0]] and neither code positive, [transform]
    returns the 4x4 matrix that is zero except for a 1 at the bottom
    right: the translation column is zero and no entry of the linear part
    comes from the pixel spacings, whatever they are. *)
Theorem transform_no_orientation (h : Header) (q : float) (spacings : list float) :
  pixdim h = q :: spacings ->
  float_in q [(-1)%float; 1%float] = true ->
  (qform_code h <= 0)%Z ->
  (sform_code h <= 0)%Z ->
  transform quatern2mat h = Ok no_orientation
  /\ map (fun row => nth 3 row 1%float) (firstn 3 no_orientation) = [0; 0; 0]%float
  /\ nth 3 (nth 3 no_orientation []) 0%float = 1%float
  /\ map (firstn 3) (firstn 3 no_orientation) = [[0; 0; 0]; [0; 0; 0]; [0; 0; 0]]%float.
Proof.
  intros Hp Hq Hqf Hsf. repeat split.
  unfold transform. rewrite Hp. simpl list_index. simpl bind.
  unfold float_in in Hq. simpl in Hq. rewrite Hq. simpl negb.
  apply Z.ltb_ge in Hqf. rewrite Hqf.
  apply Z.ltb_ge in Hsf. rewrite Hsf. reflexivity.
Qed.

End Transform.

(** C1, as stated, does not hold for every such header: with both codes
    positive and two different encoded matrices, but [pixdim[0] = 0.5],
    [transform] raises instead of returning the quaternion matrix. *)
Lemma qform_precedence_needs_valid_qfac :
  (0 < qform_code half_qfac_header)%Z
  /\ (0 < sform_code half_qfac_header)%Z
  /\ quatern2mat_model 0 0 0 (-64) (-64) (-40) 2 2 2 0.5 <> srow_matrix half_qfac_header
  /\ transform quatern2mat_model half_qfac_header = Raise Nifti1FormatError
  /\ transform quatern2mat_model half_qfac_header
       <> Ok (quatern2mat_model 0 0 0 (-64) (-64) (-40) 2 2 2 0.5).
Proof.
  repeat split; discriminate.
Qed.

Lemma transform_qform_precedence_witness :
  transform quatern2mat_model both_header
    = Ok (quatern2mat_model 0 0 0 (-64) (-64) (-40) 2 2 2 1)
  /\ transform quatern2mat_model both_header <> Ok (srow_matrix both_header).
Proof.
  apply (transform_qform_precedence quatern2mat_model both_header 1 2 2 2 [0; 0; 0; 0]%float).
  - reflexivity.
  - reflexivity.
  - reflexivity.
  - reflexivity.
  - intros H.
    apply (f_equal (fun m => match m with
                             | (a :: _) :: _ => (a =? 2)%float
                             | _ => false
                             end)) in H.
    vm_compute in H. discriminate.
Defined.

Lemma transform_invalid_qfac_witness :
  transform quatern2mat_model half_qfac_header = Raise Nifti1FormatError.
Proof.
  apply (transform_invalid_qfac quatern2mat_model half_qfac_header 0.5);
    reflexivity.
Defined.

Lemma transform_no_orientation_witness :
  transform quatern2mat_model (with_codes both_header 0 0) = Ok no_orientation.
Proof.
  apply (transform_no_orientation quatern2mat_model (with_codes both_header 0 0)
           1 [2; 2; 2; 0; 0; 0; 0]%float).
  - reflexivity.
  - reflexivity.
  - simpl. lia.
  - simpl. lia.
Defined.

(** ** Writing samples *)

Lemma in_sctypes_uint_spec (d : np_dtype) :
  in_sctypes_uint d = true <->
    In (dtype_type d) [uint8; uint16; uint32; uint64]
    /\ (dtype_native d = true \/ dtype_type d = uint8).
Proof.
  unfold in_sctypes_uint, sctypes_uint. rewrite existsb_exists. split.
  - intros [u [Hu E]]. unfold dtype_eqb in E.
    apply andb_true_iff in E. destruct E as [E1 E2].
    apply sctype_eqb_eq in E1. subst u. split; [exact Hu |].
    apply orb_true_iff in E2. destruct E2 as [E2 | E2]; [left; exact E2 |].
    simpl in Hu.
    destruct Hu as [H | [H | [H | [H | []]]]]; rewrite <- H in E2;
      try discriminate E2.
    right. now symmetry.
  - intros [Hin Hb]. exists (dtype_type d). split; [exact Hin |].
    unfold dtype_eqb. apply andb_true_iff. split; [now apply sctype_eqb_eq |].
    destruct Hb as [-> | ->]; [reflexivity | apply orb_true_r].
Qed.

(** An unsigned type of more than one byte whose byte order is not the
    machine's is not among [N.sctypes['uint']]. *)
Lemma byteswapped_not_in_sctypes_uint (t : sctype) :
  t <> uint8 -> in_sctypes_uint (mkDtype t false) = false.
Proof.
  intros Ht. destruct (in_sctypes_uint (mkDtype t false)) eqn:E; [| reflexivity].
  apply in_sctypes_uint_spec in E. simpl in E.
  destruct E as [_ [E | E]]; [discriminate | contradiction].
Qed.

Section Rescale.

Variable np : NumPy.
Variable scale_data : ndarray -> np_dtype -> pyval -> pyval.
Variable getitem_all : Nifti1 -> result ndarray.

(** [a and b or c] with [a] the test [minval > 0]: the minimum when it is
    positive and true, the integer 0 otherwise. *)
Lemma intercept_of_signed (t : np_dtype) (m : pyval) :
  in_sctypes_uint t = false ->
  intercept_of np t m =
    if np_gt np m (PInt 0) && py_truthy m then m else PInt 0.
Proof.
  intros Ht. unfold intercept_of. rewrite Ht.
  destruct (np_gt np m (PInt 0)); [| reflexivity].
  destruct (py_truthy m); reflexivity.
Qed.

Lemma intercept_of_unsigned (t : np_dtype) (m : pyval) :
  in_sctypes_uint t = true -> intercept_of np t m = m.
Proof. intros Ht. unfold intercept_of. now rewrite Ht. Qed.

(** [prewrite] once the object maps its data and the quotient of line 462
    is there. *)
Lemma prewrite_memmap (self : Nifti1) (x scaled_x : ndarray) :
  use_memmap self = true ->
  scaled np x (header self) = Ok scaled_x ->
  prewrite np scale_data getitem_all self x =
    let h := header self in
    match cast_needed np self x scaled_x with
    | Raise e => (self, [], Raise e)
    | Ok false => (self, [], Ok scaled_x)
    | Ok true =>
        match minval_of np getitem_all self x with
        | Raise e => (self, [], Raise e)
        | Ok minval =>
            let intercept := intercept_of np (dtype self) minval in
            match np_sub np x intercept with
            | Raise e => (self, [], Raise e)
            | Ok arg =>
                let scale := scale_data arg (dtype self) (scl_slope h) in
                let called := CallScaleData arg (dtype self) (scl_slope h) in
                if np_ne np scale (scl_slope h) || np_ne np intercept (scl_inter h)
                then
                  let h' := set_scaling h intercept scale in
                  (with_header self h', [called; WriteHeader h'], scaled np x h')
                else (self, [called], Ok scaled_x)
            end
        end
    end.
Proof. intros Hm Hs. unfold prewrite. rewrite Hm, Hs. reflexivity. Qed.

(** When the test of line 463 holds and the minimum and the shifted array
    are there, the scale selection is called on [x - intercept]; a header
    rewrite, if any, stores that intercept. *)
Lemma prewrite_rescales (self : Nifti1) (x scaled_x arg : ndarray) (m : pyval) :
  use_memmap self = true ->
  scaled np x (header self) = Ok scaled_x ->
  cast_needed np self x scaled_x = Ok true ->
  minval_of np getitem_all self x = Ok m ->
  np_sub np x (intercept_of np (dtype self) m) = Ok arg ->
  exists self' rest r,
    prewrite np scale_data getitem_all self x
      = (self', CallScaleData arg (dtype self) (scl_slope (header self)) :: rest, r)
    /\ ((rest = [] /\ self' = self /\ r = Ok scaled_x)
        \/ (rest = [WriteHeader (header self')]
            /\ scl_inter (header self') = intercept_of np (dtype self) m
            /\ scl_slope (header self')
                 = scale_data arg (dtype self) (scl_slope (header self))
            /\ r = scaled np x (header self'))).
Proof.
  intros Hm Hs Hc Hmin Ha. rewrite (prewrite_memmap self x scaled_x Hm Hs).
  cbv zeta. rewrite Hc, Hmin, Ha.
  match goal with |- context [if ?b then _ else _] => destruct b end.
  - do 3 eexists. split; [reflexivity |]. right. repeat split.
  - do 3 eexists. split; [reflexivity |]. left. repeat split.
Qed.

Lemma cast_needed_iff (self : Nifti1) (x scaled_x : ndarray) :
  cast_needed np self x scaled_x = Ok true <->
    shape x = shape (data self)
    \/ exists smax dmax,
         np_max np scaled_x = Ok smax /\ np_max np (data self) = Ok dmax
         /\ np_gt np smax dmax = true.
Proof.
  unfold cast_needed.
  destruct (shape_eqb (shape x) (shape (data self))) eqn:E.
  - apply shape_eqb_eq in E. split; auto.
  - assert (Hne : shape x <> shape (data self)).
    { intros H. apply shape_eqb_eq in H. congruence. }
    destruct (np_max np scaled_x) as [s | e]; simpl.
    + destruct (np_max np (data self)) as [d | e]; simpl.
      * split.
        -- intros H. injection H as H. right. eauto.
        -- intros [H | (s' & d' & Hs & Hd & Hlt)]; [contradiction |].
           injection Hs as <-. injection Hd as <-. now rewrite Hlt.
      * split; [discriminate |].
        intros [H | (s' & d' & _ & Hd & _)]; [contradiction | discriminate].
    + split; [discriminate |].
      intros [H | (s' & d' & Hs & _)]; [contradiction | discriminate].
Qed.

(** C5, as the code has it: on an object that maps its data
    ([use_memmap]), [prewrite] goes on to rescale exactly when the new
    array has the shape of the stored data or its maximum under the
    current slope and intercept exceeds the stored maximum; then the scale
    selection is called, and otherwise no scale or intercept is computed,
    the header stays as it is and nothing is rewritten. *)
Theorem prewrite_rescale_trigger (self : Nifti1) (x scaled_x : ndarray) :
  use_memmap self = true ->
  scaled np x (header self) = Ok scaled_x ->
  let full := shape x = shape (data self) in
  let exceeds :=
    exists smax dmax,
      np_max np scaled_x = Ok smax /\ np_max np (data self) = Ok dmax
      /\ np_gt np smax dmax = true in
  (cast_needed np self x scaled_x = Ok true <-> full \/ exceeds)
  /\ (full \/ exceeds ->
      forall m arg,
        minval_of np getitem_all self x = Ok m ->
        np_sub np x (intercept_of np (dtype self) m) = Ok arg ->
        exists self' rest r,
          prewrite np scale_data getitem_all self x
            = (self',
               CallScaleData arg (dtype self) (scl_slope (header self)) :: rest,
               r))
  /\ (~ (full \/ exceeds) ->
      forall self' ev r,
        prewrite np scale_data getitem_all self x = (self', ev, r) ->
        self' = self /\ ev = [] /\ (r = Ok scaled_x \/ exists e, r = Raise e))
  /\ (~ (full \/ exceeds) ->
      forall smax dmax,
        np_max np scaled_x = Ok smax -> np_max np (data self) = Ok dmax ->
        prewrite np scale_data getitem_all self x = (self, [], Ok scaled_x)).
Proof.
  intros Hm Hs full exceeds.
  pose proof (cast_needed_iff self x scaled_x) as Hiff.
  fold full in Hiff. fold exceeds in Hiff.
  split; [exact Hiff |].
  split; [| split].
  - intros Htrig m arg Hmin Ha. apply Hiff in Htrig.
    destruct (prewrite_rescales self x scaled_x arg m Hm Hs Htrig Hmin Ha)
      as (self' & rest & r & E & _).
    exists self', rest, r. exact E.
  - intros Hn self' ev r. rewrite (prewrite_memmap self x scaled_x Hm Hs). cbv zeta.
    destruct (cast_needed np self x scaled_x) as [[|] | e] eqn:E.
    + exfalso. apply Hn, Hiff. reflexivity.
    + intros H. injection H as <- <- <-. auto.
    + intros H. injection H as <- <- <-. eauto.
  - intros Hn smax dmax Es Ed.
    rewrite (prewrite_memmap self x scaled_x Hm Hs). cbv zeta.
    destruct (cast_needed np self x scaled_x) as [[|] | e] eqn:E.
    + exfalso. apply Hn, Hiff. reflexivity.
    + reflexivity.
    + exfalso. unfold cast_needed in E.
      destruct (shape_eqb (shape x) (shape (data self))); [discriminate |].
      rewrite Es, Ed in E. discriminate.
Qed.

(** Lines 464-474, for every element type: when a rescale is triggered,
    the minimum [m] is that of the new data (on a partial replacement, the
    smaller of that and the minimum of the existing data); the candidate
    intercept handed to the scale selection is [m] when the element type is
    one of [N.sctypes['uint']], and otherwise [m] when [m] is positive and
    the integer 0 when it is not. *)
Lemma prewrite_candidate_intercept
      (self : Nifti1) (x scaled_x arg : ndarray) (m : pyval) :
  use_memmap self = true ->
  scaled np x (header self) = Ok scaled_x ->
  cast_needed np self x scaled_x = Ok true ->
  minval_of np getitem_all self x = Ok m ->
  (np_gt np m (PInt 0) = true -> py_truthy m = true) ->
  let candidate :=
    if in_sctypes_uint (dtype self) then m
    else if np_gt np m (PInt 0) then m else PInt 0 in
  np_sub np x candidate = Ok arg ->
  (shape x = shape (data self) -> np_min np x = Ok m)
  /\ (shape x <> shape (data self) ->
      exists a old b,
        np_min np x = Ok a /\ getitem_all self = Ok old /\ np_min np old = Ok b
        /\ m = (if np_lt np b a then b else a))
  /\ exists self' rest r,
       prewrite np scale_data getitem_all self x
         = (self', CallScaleData arg (dtype self) (scl_slope (header self)) :: rest, r)
       /\ (rest = []
           \/ (rest = [WriteHeader (header self')]
               /\ scl_inter (header self') = candidate)).
Proof.
  intros Hm Hs Hc Hmin Hpos candidate Ha.
  assert (Hcand : intercept_of np (dtype self) m = candidate).
  { unfold candidate. destruct (in_sctypes_uint (dtype self)) eqn:Hu.
    - now apply intercept_of_unsigned.
    - rewrite (intercept_of_signed _ m Hu).
      destruct (np_gt np m (PInt 0)) eqn:G; [| reflexivity].
      now rewrite (Hpos eq_refl). }
  split; [| split].
  - intros Hsh. apply shape_eqb_eq in Hsh. unfold minval_of in Hmin.
    now rewrite Hsh in Hmin.
  - intros Hsh. unfold minval_of in Hmin.
    destruct (shape_eqb (shape x) (shape (data self))) eqn:E.
    + apply shape_eqb_eq in E. contradiction.
    + destruct (np_min np x) as [a | e] eqn:Ea; [| discriminate]. simpl in Hmin.
      destruct (getitem_all self) as [old | e] eqn:Eo; [| discriminate].
      simpl in Hmin.
      destruct (np_min np old) as [b | e] eqn:Eb; [| discriminate]. simpl in Hmin.
      injection Hmin as <-. exists a, old, b. auto.
  - rewrite <- Hcand in Ha.
    destruct (prewrite_rescales self x scaled_x arg m Hm Hs Hc Hmin Ha)
      as (self' & rest & r & E & Hr).
    exists self', rest, r. split; [exact E |].
    destruct Hr as [(-> & _) | (-> & Hi & _)]; [left; reflexivity |].
    right. split; [reflexivity |]. now rewrite Hi.
Qed.


End Rescale.

(** C5, as stated, does not hold on an object opened without
    [use_memmap]: the new array has the stored shape, yet [prewrite] hands
    it back and calls nothing, whatever numpy and the scale selection
    would compute. *)
Lemma full_replacement_without_memmap :
  shape full_block = shape (data (small_image uint8 1 0 false))
  /\ (forall np scale_data getitem_all,
        prewrite np scale_data getitem_all (small_image uint8 1 0 false) full_block
        = (small_image uint8 1 0 false, [], Ok full_block)).
Proof. split; reflexivity. Qed.

Lemma prewrite_rescale_trigger_witness :
  exists self' rest r,
    prewrite numpy_float64 scale_data_model getitem_all_model
      (small_image uint8 1 0 true) high_row
    = (self',
       CallScaleData (f64_array [2]%Z [0; 503]%float) (mkDtype uint8 true)
                     (PFloat 1%float) :: rest,
       r).
Proof.
  destruct (prewrite_rescale_trigger numpy_float64 scale_data_model getitem_all_model
              (small_image uint8 1 0 true) high_row
              (f64_array [2]%Z [-3; 500]%float) eq_refl eq_refl)
    as (_ & H & _).
  apply (H (or_intror
              (ex_intro _ (f64 500%float)
                 (ex_intro _ (f64 40%float) (conj eq_refl (conj eq_refl eq_refl)))))
           (f64 (-3)%float) (f64_array [2]%Z [0; 503]%float) eq_refl eq_refl).
Defined.

(** C6 fails on a file whose byte order is not the machine's.  The test of
    line 471 is false for an unsigned type of two, four or eight bytes in
    the other byte order, so a minimum that is not positive gives the
    intercept 0: a triggered rescale hands [x - 0] to the scale selection,
    and a header it writes stores 0.  On a two-byte unsigned image opened
    from such a file a whole array with minimum -3 is handed over
    unshifted, where the same image in the machine's byte order takes
    -3. *)
Theorem prewrite_intercept_byteswapped :
  (forall np t m,
     In t [uint16; uint32; uint64] ->
     np_gt np m (PInt 0) = false ->
     in_sctypes_uint (mkDtype t false) = false
     /\ intercept_of np (mkDtype t false) m = PInt 0
     /\ intercept_of np (mkDtype t true) m = m)
  /\ (forall np scale_data getitem_all self x scaled_x arg t m,
        use_memmap self = true ->
        dtype self = mkDtype t false ->
        In t [uint16; uint32; uint64] ->
        scaled np x (header self) = Ok scaled_x ->
        cast_needed np self x scaled_x = Ok true ->
        minval_of np getitem_all self x = Ok m ->
        np_gt np m (PInt 0) = false ->
        np_sub np x (PInt 0) = Ok arg ->
        exists self' rest r,
          prewrite np scale_data getitem_all self x
            = (self', CallScaleData arg (dtype self) (scl_slope (header self)) :: rest, r)
          /\ (rest = []
              \/ (rest = [WriteHeader (header self')]
                  /\ scl_inter (header self') = PInt 0)))
  /\ dtype (byteswapped (small_image uint16 1 0 true)) = mkDtype uint16 false
  /\ minval_of numpy_float64 getitem_all_model
       (byteswapped (small_image uint16 1 0 true)) full_block
     = Ok (f64 (-3)%float)
  /\ intercept_of numpy_float64 (mkDtype uint16 false) (f64 (-3)%float) = PInt 0
  /\ intercept_of numpy_float64 (mkDtype uint16 true) (f64 (-3)%float)
     = f64 (-3)%float
  /\ prewrite numpy_float64 scale_data_model getitem_all_model
       (byteswapped (small_image uint16 1 0 true)) full_block
     = (byteswapped (small_image uint16 1 0 true),
        [CallScaleData full_block (mkDtype uint16 false) (PFloat 1%float)],
        Ok full_block)
  /\ (exists r,
        prewrite numpy_float64 scale_data_model getitem_all_model
          (small_image uint16 1 0 true) full_block
        = (with_header (small_image uint16 1 0 true)
             (set_scaling (header (small_image uint16 1 0 true))
                (f64 (-3)%float) (PFloat 1%float)),
           [CallScaleData (f64_array [2; 2]%Z [0; 8; 10; 103]%float)
                          (mkDtype uint16 true) (PFloat 1%float);
            WriteHeader (set_scaling (header (small_image uint16 1 0 true))
                           (f64 (-3)%float) (PFloat 1%float))],
           r)).
Proof.
  assert (Hswap : forall t, In t [uint16; uint32; uint64] ->
                    in_sctypes_uint (mkDtype t false) = false).
  { intros t Ht. apply byteswapped_not_in_sctypes_uint.
    simpl in Ht. destruct Ht as [<- | [<- | [<- | []]]]; discriminate. }
  split; [| split; [| split; [| split; [| split; [| split; [| split]]]]]].
  - intros np t m Ht Hg.
    assert (Hn : in_sctypes_uint (mkDtype t true) = true).
    { apply in_sctypes_uint_spec. simpl. tauto. }
    split; [exact (Hswap t Ht) |]. split.
    + unfold intercept_of. now rewrite (Hswap t Ht), Hg.
    + unfold intercept_of. now rewrite Hn.
  - intros np scale_data getitem_all self x scaled_x arg t m
           Hm Hd Ht Hs Hc Hmin Hg Ha.
    assert (Hi : intercept_of np (dtype self) m = PInt 0).
    { unfold intercept_of. now rewrite Hd, (Hswap t Ht), Hg. }
    rewrite <- Hi in Ha.
    destruct (prewrite_rescales np scale_data getitem_all self x scaled_x arg m
                Hm Hs Hc Hmin Ha) as (self' & rest & r & E & Hr).
    exists self', rest, r. split; [exact E |].
    destruct Hr as [(-> & _) | (-> & Hinter & _)]; [left; reflexivity |].
    right. split; [reflexivity |]. now rewrite Hinter.
  - reflexivity.
  - vm_compute. reflexivity.
  - vm_compute. reflexivity.
  - vm_compute. reflexivity.
  - vm_compute. reflexivity.
  - eexists. vm_compute. reflexivity.
Qed.


(** A [float64] scalar that is above zero is a true one. *)
Lemma positive_is_true (f : float) :
  np_gt numpy_float64 (f64 f) (PInt 0) = true -> py_truthy (f64 f) = true.
Proof.
  unfold numpy_float64, np_gt, compare_by, f64, as_float, py_truthy.
  rewrite SF2Prim_Prim2SF. change (float_of_Z 0) with 0%float.
  rewrite ltb_spec, Prim2SF_zero.
  destruct (Prim2SF f) as [sg | sg | | sg mm e]; simpl;
    try discriminate; reflexivity.
Qed.

Lemma prewrite_candidate_intercept_witness :
  exists self' rest r,
    prewrite numpy_float64 scale_data_model getitem_all_model
      (small_image int16 1 0 true) high_row
    = (self',
       CallScaleData (f64_array [2]%Z [-3; 500]%float) (mkDtype int16 true)
                     (PFloat 1%float) :: rest,
       r)
    /\ (rest = []
        \/ (rest = [WriteHeader (header self')]
            /\ scl_inter (header self') = PInt 0)).
Proof.
  destruct (prewrite_candidate_intercept numpy_float64 scale_data_model
              getitem_all_model (small_image int16 1 0 true) high_row
              (f64_array [2]%Z [-3; 500]%float) (f64_array [2]%Z [-3; 500]%float)
              (f64 (-3)%float) eq_refl ltac:(vm_compute; reflexivity)
              ltac:(vm_compute; reflexivity) ltac:(vm_compute; reflexivity)
              (positive_is_true (-3)%float) ltac:(vm_compute; reflexivity))
    as (_ & _ & H).
  exact H.
Defined.


(** Under binary64 arithmetic a division by a zero of either sign leaves no
    finite sample. *)
Lemma divided_by_zero_not_finite (d q : ndarray) (slope : pyval) (s : float) :
  as_float slope = Ok s ->
  (s =? 0)%float = true ->
  np_div numpy_float64 d slope = Ok q ->
  Forall (fun v => exists f, v = f64 f /\ is_finite f = false) (items q).
Proof.
  intros Hs Hz. simpl. unfold elementwise. rewrite Hs. simpl.
  destruct (floats_of (items d)) as [fs | e]; simpl; [| discriminate].
  intros H. injection H as <-. unfold f64_array. simpl.
  rewrite map_map. apply Forall_forall. intros v Hv.
  apply in_map_iff in Hv. destruct Hv as [w [<- _]].
  eexists. split; [reflexivity |]. now apply div_zero_not_finite.
Qed.

(** * Further properties of the module *)

(** ** Unit codes *)

(** The unit tables are inverse to each other: a code names a unit exactly
    when that unit names the code, every code of the table has its unit,
    and a code or a unit outside the tables raises [KeyError]. *)
Theorem unit_table_two_way :
  (forall code u, lookup_units code = Ok u <-> lookup_unitcode u = Ok code)
  /\ (forall code, In code (map fst unitcode2units) ->
        exists u, lookup_units code = Ok u /\ lookup_unitcode u = Ok code)
  /\ (forall code, ~ In code (map fst unitcode2units) ->
        lookup_units code = Raise KeyError)
  /\ (forall u, ~ In u (map snd unitcode2units) ->
        lookup_unitcode u = Raise KeyError).
Proof.
  split; [| split; [| split]].
  - intros code u. split; intros H.
    + apply getitem_In in H; [| intros a b; apply Z.eqb_eq].
      simpl in H.
      repeat (destruct H as [H | H]; [injection H as <- <-; reflexivity |]).
      contradiction.
    + apply getitem_In in H; [| intros a b; apply String.eqb_eq].
      simpl in H.
      repeat (destruct H as [H | H]; [injection H as <- <-; reflexivity |]).
      contradiction.
  - intros code Hin. simpl in Hin.
    repeat (destruct Hin as [<- | Hin]; [eexists; split; reflexivity |]).
    contradiction.
  - intros code Hn. apply getitem_missing; [intros a b; apply Z.eqb_eq | exact Hn].
  - intros u Hn. apply getitem_missing; [intros a b; apply String.eqb_eq |].
    unfold units2unitcode. rewrite map_map. exact Hn.
Qed.

(** ** File names *)

Lemma append_suffix_inj (base s t : string) :
  (base ++ s = base ++ t)%string -> s = t.
Proof.
  induction base as [| c base IH]; simpl; [auto |].
  intros H. injection H as H. auto.
Qed.

(** [_get_filenames] names the pair [.hdr]/[.img] when the [.hdr] file
    exists and [.nii] twice when it does not; header and data share one
    file exactly in the second case. *)
Theorem get_filenames_layout (exists_ : string -> bool) (filebase : string) :
  let names := _get_filenames exists_ filebase in
  let has_hdr := exists_ (filebase ++ ".hdr")%string in
  (has_hdr = true ->
     names = ((filebase ++ ".hdr")%string, (filebase ++ ".img")%string))
  /\ (has_hdr = false ->
     names = ((filebase ++ ".nii")%string, (filebase ++ ".nii")%string))
  /\ (fst names = snd names <-> has_hdr = false).
Proof.
  unfold _get_filenames.
  destruct (exists_ (filebase ++ ".hdr")%string); simpl.
  - repeat split; try discriminate; try reflexivity.
    intros H. apply append_suffix_inj in H. discriminate.
  - repeat split; try discriminate; reflexivity.
Qed.

(** ** Geometry resolution, continued *)

Lemma length_4_inv {A : Type} (l : list A) :
  Nat.eqb (List.length l) 4 = true -> exists a b c d, l = [a; b; c; d].
Proof.
  destruct l as [| a [| b [| c [| d [| e l]]]]]; simpl; try discriminate.
  intros _. now exists a, b, c, d.
Qed.

Lemma length_8_inv {A : Type} (l : list A) :
  Nat.eqb (List.length l) 8 = true ->
  exists a b c d e f g k, l = [a; b; c; d; e; f; g; k].
Proof.
  destruct l as [| a [| b [| c [| d [| e [| f [| g [| k [| z l]]]]]]]]];
    simpl; try discriminate.
  intros _. now exists a, b, c, d, e, f, g, k.
Qed.

Section TransformShape.

Variable quatern2mat :
  float -> float -> float -> float -> float -> float ->
  float -> float -> float -> float -> matrix.

(** On a header with the list lengths of the schema, [transform] raises
    exactly when [pixdim[0]] is not +1 or -1, and then it is
    [Nifti1FormatError]; without a positive qform code the matrix it
    returns is 4x4. *)
Theorem transform_raises_only_on_qfac (h : Header) :
  schema_shaped h = true ->
  exists q,
    list_index (pixdim h) 0 = Ok q
    /\ (float_in q [(-1)%float; 1%float] = true ->
          exists m, transform quatern2mat h = Ok m
                    /\ ((qform_code h <= 0)%Z -> is_4x4 m = true))
    /\ (float_in q [(-1)%float; 1%float] = false ->
          transform quatern2mat h = Raise Nifti1FormatError).
Proof.
  unfold schema_shaped. rewrite !andb_true_iff.
  intros [[[[_ Hp] Hx] Hy] Hz].
  destruct (length_8_inv _ Hp) as (q & dx & dy & dz & p4 & p5 & p6 & p7 & Ep).
  destruct (length_4_inv _ Hx) as (x0 & x1 & x2 & x3 & Ex).
  destruct (length_4_inv _ Hy) as (y0 & y1 & y2 & y3 & Ey).
  destruct (length_4_inv _ Hz) as (z0 & z1 & z2 & z3 & Ez).
  exists q. rewrite Ep. split; [reflexivity |].
  unfold transform. rewrite Ep. simpl list_index. simpl bind.
  unfold float_in. simpl existsb.
  split; intros Hq; rewrite Hq; simpl negb; [| reflexivity].
  destruct (0 <? qform_code h)%Z eqn:Eq.
  - eexists. split; [reflexivity |]. intros Hle.
    apply Z.ltb_lt in Eq. lia.
  - destruct (0 <? sform_code h)%Z.
    + rewrite Ex, Ey, Ez. eexists. split; [reflexivity |]. reflexivity.
    + eexists. split; [reflexivity |]. reflexivity.
Qed.

End TransformShape.

Lemma transform_sform_witness :
  transform quatern2mat_model (with_codes both_header 0 2)
    = Ok (srow_matrix (with_codes both_header 0 2)).
Proof.
  apply (transform_sform quatern2mat_model (with_codes both_header 0 2)
           1%float [2; 2; 2; 0; 0; 0; 0]%float
           (3, 0, 0, -96)%float (0, 3, 0, -96)%float (0, 0, 3, -60)%float).
  - reflexivity.
  - reflexivity.
  - simpl. lia.
  - simpl. lia.
  - reflexivity.
  - reflexivity.
  - reflexivity.
Defined.

Lemma transform_raises_only_on_qfac_witness :
  exists q,
    list_index (pixdim half_qfac_header) 0 = Ok q
    /\ (float_in q [(-1)%float; 1%float] = true ->
          exists m, transform quatern2mat_model half_qfac_header = Ok m
                    /\ ((qform_code half_qfac_header <= 0)%Z -> is_4x4 m = true))
    /\ (float_in q [(-1)%float; 1%float] = false ->
          transform quatern2mat_model half_qfac_header = Raise Nifti1FormatError).
Proof.
  apply (transform_raises_only_on_qfac quatern2mat_model half_qfac_header).
  reflexivity.
Defined.

(** ** Writing samples, continued *)

Lemma positive_not_below_zero (m : float) :
  (0 <? m)%float = true -> (m <? 0)%float = false /\ is_nan m = false.
Proof.
  unfold is_nan. rewrite !ltb_spec, eqb_spec, Prim2SF_zero.
  destruct (Prim2SF m) as [sg | sg | | sg mm e]; simpl;
    try discriminate; destruct sg; simpl; intros H; try discriminate.
  - split; reflexivity.
  - split; [reflexivity |].
    unfold SFeqb, SFcompare.
    rewrite Z.compare_refl, Pos.compare_cont_refl. reflexivity.
Qed.

(** For an element type that is not among [N.sctypes['uint']] the
    candidate intercept is never negative and never a NaN, whatever the
    minimum of the data: it is that minimum, found positive, or the integer
    0; in binary64 it is a number that is not below zero. *)
Theorem intercept_never_negative (np : NumPy) (t : np_dtype) (m : pyval) :
  in_sctypes_uint t = false ->
  ((intercept_of np t m = m /\ np_gt np m (PInt 0) = true /\ py_truthy m = true)
   \/ intercept_of np t m = PInt 0)
  /\ (forall f, exists g,
        as_float (intercept_of numpy_float64 t (f64 f)) = Ok g
        /\ (g <? 0)%float = false /\ is_nan g = false).
Proof.
  intros Ht. split.
  - rewrite (intercept_of_signed np t m Ht).
    destruct (np_gt np m (PInt 0)); [| right; reflexivity].
    destruct (py_truthy m); [left; auto | right; reflexivity].
  - intros f. rewrite (intercept_of_signed numpy_float64 t (f64 f) Ht).
    assert (Hg : np_gt numpy_float64 (f64 f) (PInt 0) = (0 <? f)%float).
    { unfold numpy_float64, np_gt, compare_by, f64, as_float.
      now rewrite SF2Prim_Prim2SF. }
    rewrite Hg.
    destruct (0 <? f)%float eqn:E; cbn [andb].
    + destruct (py_truthy (f64 f)).
      * exists f. unfold f64, as_float. rewrite SF2Prim_Prim2SF.
        split; [reflexivity | now apply positive_not_below_zero].
      * exists 0%float. repeat split.
    + exists 0%float. repeat split.
Qed.

Lemma intercept_never_negative_witness :
  intercept_of numpy_float64 (mkDtype int16 true) (f64 (-3)%float) = PInt 0.
Proof.
  destruct (intercept_never_negative numpy_float64 (mkDtype int16 true)
              (f64 (-3)%float) eq_refl) as [[(_ & H & _) | H] _].
  - vm_compute in H. discriminate H.
  - exact H.
Defined.




Section RescaleState.

Variable np : NumPy.
Variable scale_data : ndarray -> np_dtype -> pyval -> pyval.
Variable getitem_all : Nifti1 -> result ndarray.


(** Writing the same whole array a second time to an object that maps its
    data: when the scale selection keeps a slope it has chosen itself and
    the intercept is equal to itself (it is not a NaN), the second
    [prewrite] returns the same samples, leaves the object as the first
    one left it and writes no header. *)
Theorem prewrite_twice (self : Nifti1) (x arg : ndarray) (m : pyval) :
  use_memmap self = true ->
  shape x = shape (data self) ->
  np_min np x = Ok m ->
  let t := dtype self in
  let c := intercept_of np t m in
  np_sub np x c = Ok arg ->
  let s1 := scale_data arg t (scl_slope (header self)) in
  np_ne np (scale_data arg t s1) s1 = false ->
  np_ne np c c = false ->
  forall self' ev out,
    prewrite np scale_data getitem_all self x = (self', ev, Ok out) ->
    prewrite np scale_data getitem_all self' x
      = (self', [CallScaleData arg t (scl_slope (header self'))], Ok out).
Proof.
  intros Hm Hs Hmin t c Ha s1 Hidem Hc.
  assert (Hstep : forall o : Nifti1,
             use_memmap o = true -> data o = data self -> dtype o = t ->
             prewrite np scale_data getitem_all o x =
               match scaled np x (header o) with
               | Raise e => (o, [], Raise e)
               | Ok sx =>
                   let h := header o in
                   let scale := scale_data arg t (scl_slope h) in
                   if np_ne np scale (scl_slope h) || np_ne np c (scl_inter h)
                   then (with_header o (set_scaling h c scale),
                         [CallScaleData arg t (scl_slope h);
                          WriteHeader (set_scaling h c scale)],
                         scaled np x (set_scaling h c scale))
                   else (o, [CallScaleData arg t (scl_slope h)], Ok sx)
               end).
  { intros o Hmo Hdo Hto. unfold prewrite, cast_needed, minval_of.
    rewrite Hmo, Hdo, Hto. simpl negb. cbv iota. cbv zeta.
    destruct (scaled np x (header o)) as [sx | e]; [| reflexivity].
    apply shape_eqb_eq in Hs. rewrite Hs, Hmin. fold c. rewrite Ha. reflexivity. }
  intros self' ev out H1.
  rewrite (Hstep self Hm eq_refl eq_refl) in H1.
  destruct (scaled np x (header self)) as [sx | e] eqn:Esx; [| discriminate].
  cbv zeta in H1. fold s1 in H1.
  destruct (np_ne np s1 (scl_slope (header self))
            || np_ne np c (scl_inter (header self))) eqn:E.
  - injection H1 as <- <- Hout.
    rewrite (Hstep (with_header self (set_scaling (header self) c s1)) Hm eq_refl eq_refl).
    simpl header. rewrite Hout. cbv zeta. simpl scl_slope. simpl scl_inter.
    rewrite Hidem, Hc. reflexivity.
  - injection H1 as <- <- <-.
    rewrite (Hstep self Hm eq_refl eq_refl), Esx. cbv zeta. fold s1. rewrite E.
    reflexivity.
Qed.

End RescaleState.


Lemma prewrite_twice_witness :
  exists self' out,
    (exists ev, prewrite numpy_float64 scale_data_model getitem_all_model
                  (small_image uint8 1 0 true) full_block = (self', ev, Ok out))
    /\ prewrite numpy_float64 scale_data_model getitem_all_model self' full_block
         = (self',
            [CallScaleData (f64_array [2; 2]%Z [0; 8; 10; 103]%float)
                           (mkDtype uint8 true) (scl_slope (header self'))],
            Ok out).
Proof.
  eexists. eexists. split.
  - eexists. vm_compute. reflexivity.
  - apply (prewrite_twice numpy_float64 scale_data_model getitem_all_model
             (small_image uint8 1 0 true) full_block
             (f64_array [2; 2]%Z [0; 8; 10; 103]%float) (f64 (-3)%float)
             eq_refl eq_refl ltac:(vm_compute; reflexivity)
             ltac:(vm_compute; reflexivity) ltac:(vm_compute; reflexivity)
             ltac:(vm_compute; reflexivity)
             _ _ _ ltac:(vm_compute; reflexivity)).
Defined.

(** ** Deriving the header from a grid *)

Lemma lookup_datatype_sound (t : sctype) (code : Z) :
  lookup_datatype t = Ok code -> lookup_sctype code = Ok t.
Proof.
  intros H. destruct t; vm_compute in H; try discriminate;
    injection H as <-; reflexivity.
Qed.

Lemma length_slice_from {A : Type} (l : list A) (d : Z) :
  Z.of_nat (List.length (slice_from l d)) =
    (let n := Z.of_nat (List.length l) in
     if (d <? 0)%Z then n - Z.max (n + d) 0 else n - Z.min d n)%Z.
Proof.
  unfold slice_from. cbv zeta. rewrite length_skipn.
  destruct (d <? 0)%Z eqn:E.
  - apply Z.ltb_lt in E. lia.
  - apply Z.ltb_ge in E. lia.
Qed.

Lemma slice_from_zero {A : Type} (l : list A) : slice_from l 0 = l.
Proof. unfold slice_from. simpl. now rewrite Z.min_l by lia. Qed.

Section GivenHeader.

Variable python2matlab : SamplingGrid -> SamplingGrid.
Variable mat2quatern : matrix -> result quatern.
Variable quatern2mat :
  float -> float -> float -> float -> float -> float ->
  float -> float -> float -> float -> matrix.

Lemma header_from_given_inv
      (h h' : Header) (t : sctype) (grid : SamplingGrid) (n : Z) :
  header_from_given python2matlab mat2quatern h t grid = Ok (h', n) ->
  exists code tr q,
    lookup_datatype t = Ok code
    /\ grid_mapping (python2matlab grid) = Affine tr
    /\ mat2quatern (block_from tr (grid_ndim (python2matlab grid) - 3)) = Ok q
    /\ n = grid_ndim (python2matlab grid)
    /\ h' = set_given h code (itemsize t * 8) q
               ([grid_ndim (python2matlab grid)]
                  ++ grid_shape (python2matlab grid)
                  ++ list_times 0%Z (7 - grid_ndim (python2matlab grid))).
Proof.
  unfold header_from_given. intros H.
  destruct (lookup_datatype t) as [code | e] eqn:L; [| discriminate].
  cbn [bind] in H.
  destruct (grid_mapping (python2matlab grid)) as [tr |] eqn:M; [| discriminate].
  destruct (mat2quatern (block_from tr (grid_ndim (python2matlab grid) - 3)))
    as [q | e] eqn:Q; [| discriminate].
  cbn [bind] in H.
  exists code, tr, q.
  assert (E : (set_given h code (itemsize t * 8) q
                 ([grid_ndim (python2matlab grid)]
                    ++ grid_shape (python2matlab grid)
                    ++ list_times 0%Z (7 - grid_ndim (python2matlab grid))),
               grid_ndim (python2matlab grid)) = (h', n)) by congruence.
  pose proof (f_equal (@fst Header Z) E) as E1.
  pose proof (f_equal (@snd Header Z) E) as E2.
  cbn [fst snd] in E1, E2.
  split; [reflexivity |]. split; [reflexivity |]. split; [exact Q |].
  split; [symmetry; exact E2 | symmetry; exact E1].
Qed.

(** The header that [header_from_given] leaves: [dim] is [ndim], the
    shape of the grid and zeros up to eight entries, and has eight entries
    exactly when [ndim <= 7] for a grid whose shape has [ndim] axes;
    [pixdim] has eight entries, the qform code is 1, [bitpix] is eight
    times the item size and [datatype] is a code that resolves back to the
    element type; the sform fields, the magic and the scaling are those of
    the header before. *)
Theorem header_from_given_fields
        (h h' : Header) (t : sctype) (grid : SamplingGrid) (n : Z) :
  header_from_given python2matlab mat2quatern h t grid = Ok (h', n) ->
  let g := python2matlab grid in
  n = grid_ndim g
  /\ dim h' = n :: grid_shape g ++ list_times 0%Z (7 - n)
  /\ (Z.of_nat (List.length (grid_shape g)) = n ->
        (List.length (dim h') = 8%nat <-> (n <= 7)%Z))
  /\ List.length (pixdim h') = 8%nat
  /\ qform_code h' = 1%Z
  /\ bitpix h' = (8 * itemsize t)%Z
  /\ lookup_sctype (datatype h') = Ok t
  /\ (sform_code h', srow_x h', srow_y h', srow_z h')
       = (sform_code h, srow_x h, srow_y h, srow_z h)
  /\ (magic h', scl_slope h', scl_inter h', vox_offset h')
       = (magic h, scl_slope h, scl_inter h, vox_offset h).
Proof.
  intros H g.
  destruct (header_from_given_inv h h' t grid n H)
    as (code & tr & q & L & _ & _ & -> & ->).
  fold g.
  unfold set_given.
  cbn [dim pixdim qform_code bitpix datatype sform_code srow_x srow_y srow_z
       magic scl_slope scl_inter vox_offset].
  split; [reflexivity |]. split; [reflexivity |].
  split.
  { intros Hlen. cbn [app List.length]. rewrite length_app.
    unfold list_times. rewrite repeat_length. lia. }
  split; [reflexivity |]. split; [reflexivity |].
  split; [lia |].
  split; [now apply lookup_datatype_sound |].
  split; reflexivity.
Qed.

(** Reading back what was derived: on the header that [header_from_given]
    leaves, [transform] takes the quaternion branch whatever the sform code
    is, and returns [quatern2mat] of the ten values of [mat2quatern] when
    the [qfac] among them is +1 or -1; with any other [qfac] it raises
    [Nifti1FormatError]. *)
Theorem header_from_given_then_transform
        (h h' : Header) (t : sctype) (grid : SamplingGrid) (n : Z) :
  header_from_given python2matlab mat2quatern h t grid = Ok (h', n) ->
  exists tr q,
    grid_mapping (python2matlab grid) = Affine tr
    /\ mat2quatern (block_from tr (grid_ndim (python2matlab grid) - 3)) = Ok q
    /\ transform quatern2mat h' =
         if float_in (q_fac q) [(-1)%float; 1%float]
         then Ok (quatern2mat (q_b q) (q_c q) (q_d q) (q_x q) (q_y q) (q_z q)
                              (q_dx q) (q_dy q) (q_dz q) (q_fac q))
         else Raise Nifti1FormatError.
Proof.
  intros H.
  destruct (header_from_given_inv h h' t grid n H)
    as (code & tr & q & _ & Hmap & Eq & -> & ->).
  exists tr, q. split; [exact Hmap |]. split; [exact Eq |].
  unfold transform, set_given. simpl pixdim. simpl list_index. simpl bind.
  unfold float_in. simpl existsb.
  destruct ((q_fac q =? -1)%float || ((q_fac q =? 1)%float || false));
    reflexivity.
Qed.

(** Writing then reading the element type: [init_read] on the header that
    [header_from_given] leaves, its magic being a sentinel, finds again the
    element type and the number of axes that were given. *)
Theorem header_from_given_then_init_read
        (h h' : Header) (t : sctype) (grid : SamplingGrid) (n : Z) :
  header_from_given python2matlab mat2quatern h t grid = Ok (h', n) ->
  string_in (magic h) [magic_single; magic_dual] = true ->
  init_read h' = Ok (t, n).
Proof.
  intros H Hmagic.
  destruct (header_from_given_inv h h' t grid n H)
    as (code & tr & q & L & _ & _ & -> & ->).
  unfold init_read, set_given. simpl magic. rewrite Hmagic. simpl negb.
  simpl datatype. rewrite (lookup_datatype_sound t code L). reflexivity.
Qed.

(** What [header_from_given] refuses: an element type without a code in
    the table, [bool_], [float128], [complex256] and every type outside
    numpy's fifteen among them, raises [KeyError] whatever the grid is; and
    with a type that has a code, as each of the twelve types of the table
    has, a mapping that is not an [Affine] raises [Nifti1FormatError]. *)
Theorem header_from_given_errors (h : Header) (t : sctype) (grid : SamplingGrid) :
  (In t [bool_; float128; complex256] -> lookup_datatype t = Raise KeyError)
  /\ (forall name size, lookup_datatype (other_sctype name size) = Raise KeyError)
  /\ (forall e, lookup_datatype t = Raise e ->
        header_from_given python2matlab mat2quatern h t grid = Raise KeyError)
  /\ (In t [uint8; int16; int32; float32; complex64; float64;
            int8; uint16; uint32; int64; uint64; complex128] ->
        exists code, lookup_datatype t = Ok code)
  /\ (forall code, lookup_datatype t = Ok code ->
        grid_mapping (python2matlab grid) = OtherMapping ->
        header_from_given python2matlab mat2quatern h t grid
          = Raise Nifti1FormatError).
Proof.
  split; [| split; [| split; [| split]]].
  - intros Hin. simpl in Hin.
    destruct Hin as [<- | [<- | [<- | []]]]; reflexivity.
  - intros name size. reflexivity.
  - intros e L. unfold header_from_given. rewrite L. simpl bind.
    unfold lookup_datatype in L. apply getitem_raises in L. now subst e.
  - intros Hin. simpl in Hin.
    repeat (destruct Hin as [<- | Hin]; [eexists; reflexivity |]).
    contradiction.
  - intros code L Hmap. unfold header_from_given. rewrite L. simpl bind.
    now rewrite Hmap.
Qed.

End GivenHeader.

(** The block of the transform that goes to [mat2quatern]: for a square
    matrix over [ndim + 1] axes it is the whole matrix when [ndim = 3], a
    4x4 matrix whenever [ndim >= 3], and never 4x4 when [ndim < 3]. *)
Theorem block_from_spatial (m : matrix) (ndim : Z) :
  Z.of_nat (List.length m) = (ndim + 1)%Z ->
  Forall (fun row => Z.of_nat (List.length row) = (ndim + 1)%Z) m ->
  (ndim = 3%Z -> block_from m (ndim - 3) = m)
  /\ ((3 <= ndim)%Z -> is_4x4 (block_from m (ndim - 3)) = true)
  /\ ((ndim < 3)%Z -> is_4x4 (block_from m (ndim - 3)) = false).
Proof.
  intros Hrows Hcols. split; [| split].
  - intros ->. unfold block_from. simpl Z.sub. rewrite slice_from_zero.
    rewrite <- (map_id m) at 2. apply map_ext. intros row. apply slice_from_zero.
  - intros Hn. unfold is_4x4, block_from.
    apply andb_true_iff. split.
    + apply Nat.eqb_eq. rewrite length_map.
      pose proof (length_slice_from m (ndim - 3)) as L. cbv zeta in L.
      destruct (ndim - 3 <? 0)%Z eqn:E; [apply Z.ltb_lt in E; lia |]. lia.
    + apply forallb_forall. intros r Hr. apply in_map_iff in Hr.
      destruct Hr as [row [<- Hin]].
      assert (Hrow : In row m).
      { unfold slice_from in Hin. revert Hin.
        generalize (Z.to_nat
          (if (ndim - 3 <? 0)%Z
           then Z.max (Z.of_nat (List.length m) + (ndim - 3)) 0
           else Z.min (ndim - 3) (Z.of_nat (List.length m)))).
        intros k Hin. rewrite <- (firstn_skipn k m). apply in_or_app. now right. }
      rewrite Forall_forall in Hcols. specialize (Hcols row Hrow).
      apply Nat.eqb_eq.
      pose proof (length_slice_from row (ndim - 3)) as L. cbv zeta in L.
      destruct (ndim - 3 <? 0)%Z eqn:E; [apply Z.ltb_lt in E; lia |]. lia.
  - intros Hn. unfold is_4x4, block_from.
    apply andb_false_iff. left. apply Nat.eqb_neq. rewrite length_map.
    pose proof (length_slice_from m (ndim - 3)) as L. cbv zeta in L.
    destruct (ndim - 3 <? 0)%Z eqn:E; [| apply Z.ltb_ge in E; lia]. lia.
Qed.

Lemma header_from_given_fields_witness :
  dim (fst (mkHeader [4; 10; 64; 64; 40; 0; 0; 0]%Z SHORT 16
              [1; 2; 2; 2; 0; 0; 0; 0]%float 352 (PFloat 1%float) (PFloat 0%float) 1 0 0 0 0 (-64) (-64) (-40)
              [0; 0; 0; 0]%float [0; 0; 0; 0]%float [0; 0; 0; 0]%float
              magic_single 1, 4%Z))
    = 4%Z :: grid_shape grid4 ++ list_times 0%Z (7 - 4).
Proof.
  destruct (header_from_given_fields python2matlab_model mat2quatern_model
              default_header
              (mkHeader [4; 10; 64; 64; 40; 0; 0; 0]%Z SHORT 16
                 [1; 2; 2; 2; 0; 0; 0; 0]%float 352 (PFloat 1%float) (PFloat 0%float) 1 0 0 0 0 (-64) (-64) (-40)
                 [0; 0; 0; 0]%float [0; 0; 0; 0]%float [0; 0; 0; 0]%float
                 magic_single 1)
              int16 grid4 4%Z eq_refl) as (_ & H & _).
  exact H.
Defined.

Lemma header_from_given_then_transform_witness :
  exists tr q,
    grid_mapping (python2matlab_model grid3) = Affine tr
    /\ mat2quatern_model (block_from tr (grid_ndim (python2matlab_model grid3) - 3)) = Ok q
    /\ transform quatern2mat_model
         (mkHeader [3; 64; 64; 40; 0; 0; 0; 0]%Z DOUBLE 64
            [1; 2; 2; 2; 0; 0; 0; 0]%float 352 (PFloat 1%float) (PFloat 0%float) 1 0 0 0 0 (-64) (-64) (-40)
            [0; 0; 0; 0]%float [0; 0; 0; 0]%float [0; 0; 0; 0]%float
            magic_single 1) =
         if float_in (q_fac q) [(-1)%float; 1%float]
         then Ok (quatern2mat_model (q_b q) (q_c q) (q_d q) (q_x q) (q_y q) (q_z q)
                                    (q_dx q) (q_dy q) (q_dz q) (q_fac q))
         else Raise Nifti1FormatError.
Proof.
  apply (header_from_given_then_transform python2matlab_model mat2quatern_model
           quatern2mat_model default_header _ float64 grid3 3%Z eq_refl).
Defined.

Lemma header_from_given_then_init_read_witness :
  init_read
    (mkHeader [3; 64; 64; 40; 0; 0; 0; 0]%Z DOUBLE 64
       [1; 2; 2; 2; 0; 0; 0; 0]%float 352 (PFloat 1%float) (PFloat 0%float) 1 0 0 0 0 (-64) (-64) (-40)
       [0; 0; 0; 0]%float [0; 0; 0; 0]%float [0; 0; 0; 0]%float
       magic_single 1) = Ok (float64, 3%Z).
Proof.
  apply (header_from_given_then_init_read python2matlab_model mat2quatern_model
           default_header _ float64 grid3 3%Z eq_refl eq_refl).
Defined.

Lemma block_from_spatial_witness :
  is_4x4 (block_from
            [ [1; 0; 0; 0; 0]; [0; 2; 0; 0; -64]; [0; 0; 2; 0; -64];
              [0; 0; 0; 2; -40]; [0; 0; 0; 0; 1] ]%float (4 - 3)) = true.
Proof.
  destruct (block_from_spatial
              [ [1; 0; 0; 0; 0]; [0; 2; 0; 0; -64]; [0; 0; 2; 0; -64];
                [0; 0; 0; 2; -40]; [0; 0; 0; 0; 1] ]%float 4%Z eq_refl)
    as (_ & H & _).
  - repeat constructor.
  - apply H. lia.
Defined.

(** ** Default header values *)

Lemma str_init_app (p : string) (c : ascii) :
  str_init (p ++ String c EmptyString) = p.
Proof.
  induction p as [| a p IH]; simpl; [reflexivity |].
  rewrite IH. destruct (p ++ String c EmptyString)%string eqn:E; [| reflexivity].
  destruct p; discriminate.
Qed.

Lemma str_last_app (p : string) (c : ascii) :
  str_last (p ++ String c EmptyString) = Ok c.
Proof.
  induction p as [| a p IH]; simpl; [reflexivity |].
  rewrite IH. destruct (p ++ String c EmptyString)%string eqn:E; [| reflexivity].
  destruct p; discriminate.
Qed.

Lemma odict_set_absent (d : list (string * pyval)) (k : string) (v : pyval) :
  ~ In k (map fst d) -> odict_set d k v = d ++ [(k, v)].
Proof.
  induction d as [| [k' w] rest IH]; simpl; [reflexivity |].
  intros Hn. destruct (String.eqb k' k) eqn:E.
  - apply String.eqb_eq in E. tauto.
  - rewrite IH by tauto. reflexivity.
Qed.

Section DefaultValues.

Variable format_defaults : ascii -> result pyval.
Variable py_int : string -> result Z.

(** Every override of [_field_defaults] is what [_default_field_value]
    returns for its field, whatever the layout descriptor is: none of the
    overrides is a false value, and nothing else is looked up. *)
Theorem default_field_value_override (fieldname fieldformat : string) (v : pyval) :
  getitem String.eqb _field_defaults fieldname = Ok v ->
  _default_field_value format_defaults py_int fieldname fieldformat = Ok v.
Proof.
  intros H. unfold _default_field_value, dict_get. rewrite H.
  apply getitem_In in H; [| intros a b; apply String.eqb_eq].
  simpl in H.
  repeat (destruct H as [H | H]; [injection H as <- <-; reflexivity |]).
  contradiction.
Qed.

(** Without an override the layout descriptor decides: a lone type
    character gives the default of that type; a counted string gives the
    default of ['s'], the count being ignored; a counted type other than
    ['s'] gives a list of that many copies of the default, and the lone
    default when the count is not positive; the empty descriptor raises
    [IndexError]. *)
Theorem default_field_value_cases (fieldname : string) :
  py_truthy (dict_get _field_defaults fieldname) = false ->
  (forall c,
      _default_field_value format_defaults py_int fieldname (String c EmptyString)
        = format_defaults c)
  /\ (forall count, count <> EmptyString ->
        _default_field_value format_defaults py_int fieldname
          (count ++ String "s" EmptyString) = format_defaults "s"%char)
  /\ (forall count c d n,
        count <> EmptyString -> c <> "s"%char ->
        format_defaults c = Ok d -> py_int count = Ok n ->
        _default_field_value format_defaults py_int fieldname
          (count ++ String c EmptyString)
          = Ok (if (0 <? n)%Z then PList (repeat d (Z.to_nat n)) else d))
  /\ _default_field_value format_defaults py_int fieldname EmptyString
       = Raise IndexError.
Proof.
  intros Ho. unfold _default_field_value. rewrite Ho.
  split; [| split; [| split]].
  - intros c. simpl. destruct (format_defaults c); reflexivity.
  - intros count Hne. rewrite str_init_app, str_last_app.
    destruct (String.eqb count EmptyString) eqn:E.
    + apply String.eqb_eq in E. contradiction.
    + simpl. destruct (format_defaults "s"); reflexivity.
  - intros count c d n Hne Hc Hd Hn. rewrite str_init_app, str_last_app.
    destruct (String.eqb count EmptyString) eqn:E.
    + apply String.eqb_eq in E. contradiction.
    + cbn [bind]. destruct (Ascii.eqb c "s") eqn:Ec.
      * apply Ascii.eqb_eq in Ec. contradiction.
      * cbn [negb bind]. rewrite Hd. cbn [bind]. rewrite Hn. cbn [bind].
        unfold list_times.
        destruct (0 <? n)%Z eqn:En.
        -- apply Z.ltb_lt in En.
           destruct (Z.to_nat n) as [| k] eqn:Ek; [lia |]. reflexivity.
        -- apply Z.ltb_ge in En.
           replace (Z.to_nat n) with 0%nat by lia. reflexivity.
  - reflexivity.
Qed.

Lemma header_defaults_from_fresh (formats : list (string * string)) :
  forall hdr,
    NoDup (map fst formats) ->
    (forall k, In k (map fst formats) -> ~ In k (map fst hdr)) ->
    (forall name fmt, In (name, fmt) formats ->
       exists v, _default_field_value format_defaults py_int name fmt = Ok v) ->
    exists added,
      header_defaults_from format_defaults py_int formats hdr = Ok (hdr ++ added)
      /\ map fst added = map fst formats
      /\ Forall2 (fun nf kv =>
                    _default_field_value format_defaults py_int (fst nf) (snd nf)
                      = Ok (snd kv)) formats added.
Proof.
  induction formats as [| [name fmt] rest IH]; intros hdr Hnd Hfresh Hok.
  - exists []. simpl. rewrite app_nil_r. repeat split. constructor.
  - destruct (Hok name fmt (or_introl eq_refl)) as [v Hv].
    simpl map in Hnd. inversion Hnd as [| ? ? Hnotin Hnd']; subst.
    destruct (IH (hdr ++ [(name, v)]) Hnd') as (added & E & Hk & Hv').
    + intros k Hin. rewrite map_app, in_app_iff. simpl.
      intros [H | [H | []]].
      * apply (Hfresh k); [right; exact Hin | exact H].
      * subst. contradiction.
    + intros n f Hin. apply Hok. right. exact Hin.
    + exists ((name, v) :: added). simpl header_defaults_from.
      rewrite Hv. cbn [bind].
      rewrite odict_set_absent by (apply Hfresh; left; reflexivity).
      rewrite E, <- app_assoc. repeat split.
      * simpl. now rewrite Hk.
      * constructor; [exact Hv | exact Hv'].
Qed.

End DefaultValues.

Lemma struct_formats_names_distinct : NoDup (map fst struct_formats).
Proof.
  assert (E : nodup string_dec (map fst struct_formats) = map fst struct_formats)
    by (vm_compute; reflexivity).
  rewrite <- E. apply NoDup_nodup.
Qed.

Section SchemaDefaults.

Variable format_defaults : ascii -> result pyval.
Variable py_int : string -> result Z.

Hypothesis format_defaults_known :
  forall c, In c ["i"; "h"; "f"; "c"; "B"; "s"]%char ->
            exists d, format_defaults c = Ok d.
Hypothesis py_int_decimal :
  forall s n, decimal s = Some n -> py_int s = Ok n.

Ltac default_of_entry :=
  unfold _default_field_value; cbn;
  repeat match goal with
    | |- context [format_defaults ?c] =>
        let d := fresh "d" in
        let E := fresh "E" in
        destruct (format_defaults_known c) as [d E];
        [cbn; tauto | rewrite E; cbn]
    | |- context [py_int ?s] => rewrite (py_int_decimal s _ eq_refl); cbn
    end;
  eexists; reflexivity.

Lemma schema_defaults_exist (name fmt : string) :
  In (name, fmt) struct_formats ->
  exists v, _default_field_value format_defaults py_int name fmt = Ok v.
Proof.
  intros Hin. unfold struct_formats in Hin. simpl in Hin.
  repeat (destruct Hin as [Hin | Hin];
          [injection Hin as <- <-; default_of_entry |]).
  contradiction.
Qed.

(** When [utils.format_defaults] knows the six type characters of the
    schema and [int] reads decimal digits, [header_defaults] fills an empty
    header with one entry for each field of the schema, in the order of
    the schema, each holding what [_default_field_value] gives for the
    field and its layout. *)
Theorem header_defaults_schema :
  exists hdr,
    header_defaults format_defaults py_int [] = Ok hdr
    /\ map fst hdr = map fst struct_formats
    /\ Forall2 (fun nf kv =>
                  _default_field_value format_defaults py_int (fst nf) (snd nf)
                    = Ok (snd kv)) struct_formats hdr.
Proof.
  destruct (header_defaults_from_fresh format_defaults py_int struct_formats []
              struct_formats_names_distinct)
    as (added & E & Hk & Hv).
  - intros k _ [].
  - exact schema_defaults_exist.
  - exists added. auto.
Qed.

End SchemaDefaults.

Lemma default_field_value_override_witness :
  _default_field_value format_defaults_model py_int_model "magic" "4s"
    = Ok (PStr magic_single).
Proof.
  apply (default_field_value_override format_defaults_model py_int_model
           "magic" "4s" (PStr magic_single)).
  reflexivity.
Defined.

Lemma default_field_value_cases_witness :
  _default_field_value format_defaults_model py_int_model "dim" "8h"
    = Ok (PList (repeat (PInt 0) 8)).
Proof.
  destruct (default_field_value_cases format_defaults_model py_int_model
              "dim" eq_refl) as (_ & _ & H & _).
  apply (H "8"%string "h"%char (PInt 0) 8%Z).
  - discriminate.
  - discriminate.
  - reflexivity.
  - reflexivity.
Defined.

Lemma header_defaults_schema_witness :
  exists hdr,
    header_defaults format_defaults_model py_int_model [] = Ok hdr
    /\ map fst hdr = map fst struct_formats
    /\ Forall2 (fun nf kv =>
                  _default_field_value format_defaults_model py_int_model
                    (fst nf) (snd nf) = Ok (snd kv)) struct_formats hdr.
Proof.
  apply (header_defaults_schema format_defaults_model py_int_model).
  - intros c Hc. simpl in Hc.
    repeat (destruct Hc as [<- | Hc]; [eexists; reflexivity |]).
    contradiction.
  - intros s n Hs. unfold py_int_model. now rewrite Hs.
Defined.

(** ** The constructor *)

(** The grid that the constructor builds when none is given: with
    [ndim = 3] or [ndim = 4] and a header of the schema's list lengths,
    shape, start and step have [ndim] entries each, the start is the
    negated origin and the names are the reversed axis names; with any
    other [ndim] no branch binds [axisnames] and the call raises
    [UnboundLocalError]. *)
Theorem grid_arguments_axes (space spacetime : list string) (h : Header) (ndim : Z) :
  (schema_shaped h = true -> ndim = 3%Z \/ ndim = 4%Z ->
     exists shape0 start step,
       grid_arguments space spacetime h ndim
         = Returns (rev (if (ndim =? 3)%Z then space else spacetime),
                    shape0, start, step)
       /\ Z.of_nat (List.length shape0) = ndim
       /\ Z.of_nat (List.length start) = ndim
       /\ Z.of_nat (List.length step) = ndim
       /\ firstn 3 start
            = [(- qoffset_x h)%float; (- qoffset_y h)%float; (- qoffset_z h)%float]
       /\ firstn 3 shape0 = firstn 3 (skipn 1 (dim h))
       /\ firstn 3 step = firstn 3 (skipn 1 (pixdim h)))
  /\ (ndim <> 3%Z -> ndim <> 4%Z ->
        grid_arguments space spacetime h ndim = Raises UnboundLocalError).
Proof.
  split.
  - unfold schema_shaped. rewrite !andb_true_iff.
    intros [[[[Hd Hp] _] _] _] Hn.
    destruct (length_8_inv _ Hd) as (d0 & d1 & d2 & d3 & d4 & d5 & d6 & d7 & Ed).
    destruct (length_8_inv _ Hp) as (p0 & p1 & p2 & p3 & p4 & p5 & p6 & p7 & Ep).
    unfold grid_arguments. rewrite Ed, Ep.
    destruct Hn as [-> | ->]; simpl.
    + do 3 eexists. repeat split; reflexivity.
    + do 3 eexists. repeat split; reflexivity.
  - intros H3 H4. unfold grid_arguments.
    destruct (ndim =? 3)%Z eqn:E3; [apply Z.eqb_eq in E3; contradiction |].
    destruct (ndim =? 4)%Z eqn:E4; [apply Z.eqb_eq in E4; contradiction |].
    reflexivity.
Qed.

Section WriteBranch.

Variable python2matlab : SamplingGrid -> SamplingGrid.
Variable mat2quatern : matrix -> result quatern.

(** Opening for write: without a grid the constructor raises
    [NotImplementedError] whatever the [dtype] keyword is; with a grid and
    no [dtype] keyword the element type is [float64], and a header that
    comes back carries the code 64 and 64 bits per sample; what
    [header_from_given] raises is passed on. *)
Theorem init_write_cases (h : Header) :
  (forall dtype_kw,
      init_write python2matlab mat2quatern h dtype_kw None
        = Raises NotImplementedError)
  /\ (forall g h' t n,
        init_write python2matlab mat2quatern h None (Some g) = Returns (h', t, n) ->
        t = float64 /\ datatype h' = DOUBLE /\ bitpix h' = 64%Z
        /\ n = grid_ndim (python2matlab g))
  /\ (forall dtype_kw g e,
        header_from_given python2matlab mat2quatern h
          (match dtype_kw with Some t => t | None => float64 end) g = Raise e ->
        init_write python2matlab mat2quatern h dtype_kw (Some g)
          = Raises (Builtin e)).
Proof.
  split; [reflexivity |]. split.
  - intros g h' t n. unfold init_write.
    destruct (header_from_given python2matlab mat2quatern h float64 g)
      as [[h1 n1] | e] eqn:E; [| discriminate].
    intros H.
    assert (E1 : (h1, float64, n1) = (h', t, n)) by congruence.
    pose proof (f_equal (fun p : Header * sctype * Z => fst (fst p)) E1) as Eh.
    pose proof (f_equal (fun p : Header * sctype * Z => snd (fst p)) E1) as Et.
    pose proof (f_equal (fun p : Header * sctype * Z => snd p) E1) as En.
    cbn [fst snd] in Eh, Et, En. subst h' t n.
    destruct (header_from_given_inv python2matlab mat2quatern h h1 float64 g n1 E)
      as (code & tr & q & L & _ & _ & -> & ->).
    vm_compute in L. injection L as <-.
    repeat split.
  - intros dtype_kw g e E. unfold init_write. now rewrite E.
Qed.

End WriteBranch.

(** ** Canonical fields *)

Lemma odict_get_set_same (d : list (string * pyval)) (k : string) (v : pyval) :
  odict_get (odict_set d k v) k = Ok v.
Proof.
  induction d as [| [k' w] rest IH]; simpl.
  - now rewrite String.eqb_refl.
  - destruct (String.eqb k' k) eqn:E; simpl; rewrite E; [reflexivity | exact IH].
Qed.

Lemma odict_get_set_other (d : list (string * pyval)) (k k' : string) (v : pyval) :
  k <> k' -> odict_get (odict_set d k v) k' = odict_get d k'.
Proof.
  intros Hne. induction d as [| [k0 w] rest IH]; simpl.
  - destruct (String.eqb k k') eqn:E; [| reflexivity].
    apply String.eqb_eq in E. contradiction.
  - destruct (String.eqb k0 k) eqn:E; simpl.
    + apply String.eqb_eq in E. subst k0.
      destruct (String.eqb k k') eqn:E'; [| reflexivity].
      apply String.eqb_eq in E'. contradiction.
    + destruct (String.eqb k0 k'); [reflexivity | exact IH].
Qed.

(** [inform_canonical]: a dictionary that is given replaces the canonical
    fields as it is.  Without one, a [dim] of at least five entries gives
    [datasize], [ndim], [xdim], [ydim], [zdim], [tdim] and [scaling] from
    [bitpix], the first five entries of [dim] and [scl_slope], every other
    key keeping its value; a shorter [dim] raises [ValueError] after
    [datasize] alone has been stored. *)
Theorem inform_canonical_fields (h : Header) (canonical_fields : list (string * pyval)) :
  (forall d, inform_canonical h (Some d) canonical_fields = (d, Ok tt))
  /\ (forall n x y z t rest,
        dim h = n :: x :: y :: z :: t :: rest ->
        exists c,
          inform_canonical h None canonical_fields = (c, Ok tt)
          /\ odict_get c "datasize" = Ok (PInt (bitpix h))
          /\ odict_get c "ndim" = Ok (PInt n)
          /\ odict_get c "xdim" = Ok (PInt x)
          /\ odict_get c "ydim" = Ok (PInt y)
          /\ odict_get c "zdim" = Ok (PInt z)
          /\ odict_get c "tdim" = Ok (PInt t)
          /\ odict_get c "scaling" = Ok (scl_slope h)
          /\ (forall k,
                ~ In k ["datasize"; "ndim"; "xdim"; "ydim"; "zdim"; "tdim";
                        "scaling"]%string ->
                odict_get c k = odict_get canonical_fields k))
  /\ ((List.length (dim h) < 5)%nat ->
        inform_canonical h None canonical_fields
          = (odict_set canonical_fields "datasize" (PInt (bitpix h)),
             Raise ValueError)).
Proof.
  split; [reflexivity |]. split.
  - intros n x y z t rest Ed. unfold inform_canonical. rewrite Ed.
    cbn [firstn]. eexists. split; [reflexivity |].
    repeat split;
      try (rewrite ?odict_get_set_other by discriminate;
           apply odict_get_set_same).
    intros k Hk. simpl in Hk.
    rewrite !odict_get_set_other; [reflexivity | | | | | | |];
      intros E; apply Hk; subst k; tauto.
  - intros Hlen. unfold inform_canonical.
    destruct (dim h) as [| a [| b [| c [| d [| e l]]]]]; simpl in Hlen;
      try reflexivity; lia.
Qed.

(** ** Opening for read, continued *)

(** The read branch of [__init__] returns exactly when the magic is a
    sentinel, the [datatype] code is in the table and [dim] is not empty,
    and then with the element type of the code and [dim[0]]; the magic is
    tested first, so a record with an unknown magic raises
    [Nifti1FormatError] even if its code is unsupported, and an empty [dim]
    raises [IndexError] only after magic and code have passed. *)
Theorem init_read_cases (h : Header) :
  (forall t n,
      init_read h = Ok (t, n) <->
        (magic h = magic_single \/ magic h = magic_dual)
        /\ lookup_sctype (datatype h) = Ok t
        /\ list_index (dim h) 0 = Ok n)
  /\ (string_in (magic h) [magic_single; magic_dual] = false ->
        init_read h = Raise Nifti1FormatError)
  /\ (forall t,
        string_in (magic h) [magic_single; magic_dual] = true ->
        lookup_sctype (datatype h) = Ok t -> dim h = [] ->
        init_read h = Raise IndexError).
Proof.
  unfold init_read.
  destruct (string_in (magic h) [magic_single; magic_dual]) eqn:E; cbn [negb].
  - assert (Hm : magic h = magic_single \/ magic h = magic_dual).
    { apply string_in_In in E. simpl in E.
      destruct E as [E | [E | []]]; auto. }
    split; [| split; [discriminate |]].
    + intros t n.
      destruct (lookup_sctype (datatype h)) as [t' | e]; cbn [bind].
      * destruct (list_index (dim h) 0) as [n' | e]; cbn [bind].
        -- split.
           ++ intros H. assert (t' = t /\ n' = n) as [-> ->] by (split; congruence).
              auto.
           ++ intros (_ & Ht & Hn). congruence.
        -- split; [discriminate | intros (_ & _ & H); discriminate].
      * split; [discriminate | intros (_ & H & _); discriminate].
    + intros t _ Ht Hd. rewrite Ht, Hd. reflexivity.
  - split; [| split; [reflexivity | discriminate]].
    intros t n. split; [discriminate |].
    intros (Hm & _). exfalso.
    assert (Hin : string_in (magic h) [magic_single; magic_dual] = true).
    { apply string_in_In. simpl. destruct Hm as [-> | ->]; auto. }
    congruence.
Qed.

(** ** Geometry resolution: what is read *)

Section TransformReads.

Variable quatern2mat :
  float -> float -> float -> float -> float -> float ->
  float -> float -> float -> float -> matrix.

(** [transform] reads [pixdim], the two codes, the quaternion, the offsets
    and the srow vectors, and nothing else: two headers that agree on these
    give the same result.  In particular the [qfac] entry of the header is
    never read; the factor is [pixdim[0]]. *)
Theorem transform_reads (h h' : Header) :
  pixdim h = pixdim h' ->
  (qform_code h, sform_code h) = (qform_code h', sform_code h') ->
  (quatern_b h, quatern_c h, quatern_d h)
    = (quatern_b h', quatern_c h', quatern_d h') ->
  (qoffset_x h, qoffset_y h, qoffset_z h)
    = (qoffset_x h', qoffset_y h', qoffset_z h') ->
  (srow_x h, srow_y h, srow_z h) = (srow_x h', srow_y h', srow_z h') ->
  transform quatern2mat h = transform quatern2mat h'.
Proof.
  intros Hp Hc Hq Ho Hs. unfold transform.
  assert (qform_code h = qform_code h' /\ sform_code h = sform_code h')
    as [-> ->] by (split; congruence).
  assert (quatern_b h = quatern_b h' /\ quatern_c h = quatern_c h'
          /\ quatern_d h = quatern_d h') as (-> & -> & ->)
      by (repeat split; congruence).
  assert (qoffset_x h = qoffset_x h' /\ qoffset_y h = qoffset_y h'
          /\ qoffset_z h = qoffset_z h') as (-> & -> & ->)
      by (repeat split; congruence).
  assert (srow_x h = srow_x h' /\ srow_y h = srow_y h'
          /\ srow_z h = srow_z h') as (-> & -> & ->)
      by (repeat split; congruence).
  rewrite Hp. reflexivity.
Qed.

End TransformReads.

Lemma transform_reads_witness :
  transform quatern2mat_model both_header
    = transform quatern2mat_model
        (with_dim (with_qfac both_header 0.5%float) [3; 1; 1; 1; 0; 0; 0; 0]%Z).
Proof.
  apply (transform_reads quatern2mat_model both_header
           (with_dim (with_qfac both_header 0.5%float) [3; 1; 1; 1; 0; 0; 0; 0]%Z));
    reflexivity.
Defined.

(** ** Writing samples: a minimum that is not a number *)

Section RescaleNaN.

Variable np : NumPy.
Variable scale_data : ndarray -> np_dtype -> pyval -> pyval.
Variable getitem_all : Nifti1 -> result ndarray.

(** When a rescale is triggered on an element type among
    [N.sctypes['uint']] and the minimum differs from every number, as a
    NaN does, the header is rewritten on that call with that minimum as its
    intercept, whatever the scale selection returns. *)
Theorem prewrite_nan_intercept
        (self : Nifti1) (x scaled_x arg : ndarray) (m : pyval) :
  use_memmap self = true ->
  scaled np x (header self) = Ok scaled_x ->
  cast_needed np self x scaled_x = Ok true ->
  minval_of np getitem_all self x = Ok m ->
  in_sctypes_uint (dtype self) = true ->
  (forall v, np_ne np m v = true) ->
  np_sub np x m = Ok arg ->
  exists self' r,
    prewrite np scale_data getitem_all self x
      = (self',
         [CallScaleData arg (dtype self) (scl_slope (header self));
          WriteHeader (header self')],
         r)
    /\ scl_inter (header self') = m
    /\ r = scaled np x (header self').
Proof.
  intros Hm Hs Hc Hmin Hu Hnan Ha. unfold prewrite. rewrite Hm. cbn [negb].
  cbv zeta. rewrite Hs, Hc, Hmin.
  unfold intercept_of. rewrite Hu, Ha, Hnan, orb_true_r.
  exists (with_header self
            (set_scaling (header self) m
               (scale_data arg (dtype self) (scl_slope (header self))))),
         (scaled np x
            (set_scaling (header self) m
               (scale_data arg (dtype self) (scl_slope (header self))))).
  split; [reflexivity |]. split; reflexivity.
Qed.

End RescaleNaN.

(** In binary64 a NaN differs from every number. *)
Lemma nan_differs (v : pyval) : np_ne numpy_float64 (f64 nan) v = true.
Proof.
  unfold numpy_float64, np_ne, compare_by.
  destruct (as_float v) as [g | e]; [| reflexivity].
  change (as_float (f64 nan)) with (Ok nan : result float).
  cbv beta iota. rewrite eqb_spec. reflexivity.
Qed.

Lemma prewrite_nan_intercept_witness :
  exists self' r,
    prewrite numpy_float64 scale_data_model getitem_all_model
      (small_image uint8 1 0 true) (f64_array [2; 2]%Z [1; nan; 2; 3]%float)
      = (self',
         [CallScaleData (f64_array [2; 2]%Z [nan; nan; nan; nan]%float)
                        (mkDtype uint8 true) (PFloat 1%float);
          WriteHeader (header self')],
         r)
    /\ scl_inter (header self') = f64 nan
    /\ r = scaled numpy_float64 (f64_array [2; 2]%Z [1; nan; 2; 3]%float)
             (header self').
Proof.
  apply (prewrite_nan_intercept numpy_float64 scale_data_model getitem_all_model
           (small_image uint8 1 0 true) (f64_array [2; 2]%Z [1; nan; 2; 3]%float)
           (f64_array [2; 2]%Z [1; nan; 2; 3]%float)
           (f64_array [2; 2]%Z [nan; nan; nan; nan]%float) (f64 nan)
           eq_refl ltac:(vm_compute; reflexivity) eq_refl
           ltac:(vm_compute; reflexivity) eq_refl nan_differs
           ltac:(vm_compute; reflexivity)).
Defined.
